(** * buildbot.changes.svnpoller: the SVN change poller

    A shallow embedding of [buildbot/changes/svnpoller.py] and the
    properties of its change-detection pipeline: the path policies
    ([split_file_alwaystrunk], [split_file_branches]), prefix resolution
    ([_determine_prefix_2]), the revision filter ([_filter_new_logentries],
    [_get_new_logentries]), the change builder ([_transform_path],
    [_create_changes]), submission ([_submit_changes], [_finished]) and
    the trigger [checksvn].

    Python values are modelled as follows: [str] as [string], [int] as [Z],
    [None]-or-value as [option], a raised exception as the [Raise] case of
    [result].  The attributes of [self] that the methods read or assign are
    the fields of the record [SvnSource]; a method that assigns one takes
    the record and returns the updated one. *)

From Stdlib Require Import ZArith String Ascii List Bool Lia.
From Stdlib Require Import Sorted Permutation DecimalString.
Import ListNotations.

Open Scope string_scope.
Open Scope list_scope.
Open Scope Z_scope.

(** ** Exceptions *)

Inductive exn : Type :=
| AssertionError (msg : string)
| IndexError
| TypeError
| ValueError
| ExpatError
| SinkError (msg : string)
| AttributeError.

Inductive result (A : Type) : Type :=
| Return (a : A)
| Raise (e : exn).

Arguments Return {A} a.
Arguments Raise {A} e.

Definition bind {A B : Type} (m : result A) (k : A -> result B) : result B :=
  match m with
  | Return a => k a
  | Raise e => Raise e
  end.

Notation "x <- m ;; k" := (bind m (fun x => k))
  (at level 61, m at next level, right associativity).
Notation "' p <- m ;; k" := (bind m (fun p => k))
  (at level 61, p pattern, m at next level, right associativity).

(** [_assert(condition, msg)] *)
Definition _assert (condition : bool) (msg : string) : result bool :=
  if condition then Return true else Raise (AssertionError msg).

(** ** Python string primitives *)

Module Py.

(** [s.startswith(p)] *)
Fixpoint startswith (s p : string) {struct p} : bool :=
  match p with
  | EmptyString => true
  | String c p' =>
      match s with
      | EmptyString => false
      | String d s' => Ascii.eqb d c && startswith s' p'
      end
  end.

(** [s[n:]] *)
Fixpoint drop (n : nat) (s : string) : string :=
  match n with
  | O => s
  | S n' => match s with
            | EmptyString => EmptyString
            | String _ s' => drop n' s'
            end
  end.

(** [if s.startswith("/"): s = s[1:]] *)
Definition strip_slash (s : string) : string :=
  if startswith s "/" then drop 1 s else s.

(** [s.split(sep)] for a one-character separator: never the empty list *)
Fixpoint split (sep : ascii) (s : string) : list string :=
  match s with
  | EmptyString => [EmptyString]
  | String c s' =>
      if Ascii.eqb c sep then EmptyString :: split sep s'
      else match split sep s' with
           | [] => [String c EmptyString]
           | p :: ps => String c p :: ps
           end
  end.

(** [sep.join(l)] *)
Fixpoint join (sep : string) (l : list string) : string :=
  match l with
  | [] => EmptyString
  | [x] => x
  | x :: rest => x ++ sep ++ join sep rest
  end.

(** [c in s] for a character *)
Fixpoint contains (c : ascii) (s : string) : bool :=
  match s with
  | EmptyString => false
  | String d s' => Ascii.eqb d c || contains c s'
  end.

(** ["%d" % n] *)
Definition str_of_int (n : Z) : string :=
  NilEmpty.string_of_int (Z.to_int n).

(** [s.endswith(c)] for a one-character suffix *)
Fixpoint endswith (s : string) (c : ascii) : bool :=
  match s with
  | EmptyString => false
  | String d EmptyString => Ascii.eqb d c
  | String _ s' => endswith s' c
  end.

(** [s[:-1]] *)
Fixpoint drop_last (s : string) : string :=
  match s with
  | EmptyString => EmptyString
  | String _ EmptyString => EmptyString
  | String d s' => String d (drop_last s')
  end.

End Py.

(** ** The path policies

    A policy returns [(branch, filepath)], or [None] for a file that is not
    part of the project, or raises. *)

Definition split_result : Type := option (option string * string).

Definition split_file_alwaystrunk (path : string) : result split_result :=
  Return (Some (None, path)).

Definition split_file_branches (path : string) : result split_result :=
  let pieces := Py.split "/" path in
  match pieces with
  | [] => Raise IndexError
  | piece0 :: pieces1 =>
      if String.eqb piece0 "trunk" then
        Return (Some (None, Py.join "/" pieces1))
      else if String.eqb piece0 "branches" then
        match pieces1 with
        | [] => Raise IndexError
        | piece1 :: pieces2 => Return (Some (Some piece1, Py.join "/" pieces2))
        end
      else Return None
  end.

(** ** Data

    A [<logentry>] node is represented by what the poller reads from it: the
    [revision] attribute as [int(...)] gives it; the text of the first
    [author], [msg] and [date] child, each [None] where the entry has no
    such child; and the text of each [<path>] under the first [<paths>]
    child, in document order, [None] where the entry has no [<paths>]. *)

Record LogEntry : Type := {
  revision : Z;
  author : option string;
  msg : option string;
  date : option string;
  paths : option (list string)
}.

(** [buildbot.changes.changes.Change], by the keywords it is built with. *)
Record Change : Type := {
  who : string;
  files : list string;
  comments : string;
  change_revision : Z;
  when : Z;
  branch : option string
}.

(** The attributes of an [SvnSource] that the pipeline reads or assigns.
    Neither the class nor the constructor creates [_prefix]: the field is
    [None] as long as the attribute does not exist, where reading it
    raises [AttributeError], and [Some s] once [_determine_prefix_2] has
    assigned the string [s].  [last_change] and [working] start as the
    class attributes [None] and [False]. *)
Record SvnSource : Type := {
  svnurl : string;
  split_file_function : string -> result split_result;
  svnuser : option string;
  svnpasswd : option string;
  svnbin : string;
  pollinterval : Z;
  histmax : Z;
  _prefix : option string;
  last_change : option Z;
  working : bool
}.

Definition set_prefix (self : SvnSource) (p : option string) : SvnSource :=
  {| svnurl := svnurl self; split_file_function := split_file_function self;
     svnuser := svnuser self; svnpasswd := svnpasswd self;
     svnbin := svnbin self; pollinterval := pollinterval self;
     histmax := histmax self; _prefix := p;
     last_change := last_change self; working := working self |}.

Definition set_last_change (self : SvnSource) (r : option Z) : SvnSource :=
  {| svnurl := svnurl self; split_file_function := split_file_function self;
     svnuser := svnuser self; svnpasswd := svnpasswd self;
     svnbin := svnbin self; pollinterval := pollinterval self;
     histmax := histmax self; _prefix := _prefix self;
     last_change := r; working := working self |}.

Definition set_working (self : SvnSource) (w : bool) : SvnSource :=
  {| svnurl := svnurl self; split_file_function := split_file_function self;
     svnuser := svnuser self; svnpasswd := svnpasswd self;
     svnbin := svnbin self; pollinterval := pollinterval self;
     histmax := histmax self; _prefix := _prefix self;
     last_change := last_change self; working := w |}.

(** Truth value of an optional string: [None] and [""] are false. *)
Definition truthy (o : option string) : bool :=
  match o with
  | Some (String _ _) => true
  | _ => false
  end.

(** [SvnSource.split_file] *)
Definition split_file (self : SvnSource) (path : string) : result split_result :=
  split_file_function self path.

(** ** The revision filter *)

(** The loop of [_filter_new_logentries]: entries are appended until one
    carries the revision [last_change], where the loop breaks. *)
Fixpoint collect_new (last_change0 : Z) (logentries : list LogEntry)
  : list LogEntry :=
  match logentries with
  | [] => []
  | el :: rest =>
      if last_change0 =? revision el then []
      else el :: collect_new last_change0 rest
  end.

(** [SvnSource._filter_new_logentries]: returns
    [(new_last_change, new_logentries)]; on the first run it also assigns
    [self.last_change]. *)
Definition _filter_new_logentries (self : SvnSource)
    (logentries : list LogEntry) (last_change0 : option Z)
  : SvnSource * (option Z * list LogEntry) :=
  match logentries with
  | [] => (self, (None, []))
  | el0 :: _ =>
      let mostRecent := revision el0 in
      match last_change0 with
      | None => (set_last_change self (Some mostRecent), (Some mostRecent, []))
      | Some lc =>
          if lc =? mostRecent then (self, (Some mostRecent, []))
          else (self, (Some mostRecent, rev (collect_new lc logentries)))
      end
  end.

(** [SvnSource._get_new_logentries] *)
Definition _get_new_logentries (self : SvnSource) (logentries : list LogEntry)
  : SvnSource * list LogEntry :=
  let '(self1, (new_last_change, new_logentries)) :=
    _filter_new_logentries self logentries (last_change self) in
  (set_last_change self1 new_last_change, new_logentries).

(** A run of poll cycles, each given by the entries its log query parsed
    to: the final poller and what each cycle handed on as new. *)
Fixpoint run_cycles (self : SvnSource) (cycles : list (list LogEntry))
  : SvnSource * list (list LogEntry) :=
  match cycles with
  | [] => (self, [])
  | logentries :: rest =>
      let '(self1, new_logentries) := _get_new_logentries self logentries in
      let '(self2, emitted) := run_cycles self1 rest in
      (self2, new_logentries :: emitted)
  end.

(** ** The change builder *)

(** [SvnSource._transform_path].  Reading a [_prefix] that does not exist
    raises [AttributeError]; unpacking a [None] result of the policy into
    [branch, final_path] raises [TypeError]. *)
Definition _transform_path (self : SvnSource) (path : string)
  : result (option string * string) :=
  match _prefix self with
  | None => Raise AttributeError
  | Some prefix =>
      _ <- _assert (Py.startswith path prefix)
             ("filepath '" ++ path ++ "' should start with prefix '"
              ++ prefix ++ "'") ;;
      let relative_path :=
        Py.strip_slash (Py.drop (String.length prefix) path) in
      r <- split_file self relative_path ;;
      match r with
      | None => Raise TypeError
      | Some (branch0, final_path) => Return (branch0, final_path)
      end
  end.

Definition branch_eqb (a b : option string) : bool :=
  match a, b with
  | None, None => true
  | Some x, Some y => String.eqb x y
  | _, _ => false
  end.

(** The [branches] dictionary of [_create_changes], as its items in the
    order their keys were first inserted. *)
Definition branches_dict : Type := list (option string * list string).

(** [if not branch in branches: branches[branch] = []] followed by
    [branches[branch].append(filename)] *)
Fixpoint branches_append (branch0 : option string) (filename : string)
    (branches : branches_dict) : branches_dict :=
  match branches with
  | [] => [(branch0, [filename])]
  | (b, fs) :: rest =>
      if branch_eqb b branch0 then (b, fs ++ [filename]) :: rest
      else (b, fs) :: branches_append branch0 filename rest
  end.

(** The loop over the [<path>] nodes of one entry. *)
Fixpoint group_paths (self : SvnSource) (ps : list string)
    (branches : branches_dict) : result branches_dict :=
  match ps with
  | [] => Return branches
  | p :: rest =>
      let path := Py.strip_slash p in
      '(branch0, filename) <- _transform_path self path ;;
      group_paths self rest (branches_append branch0 filename branches)
  end.

(** [Change(who=author, files=branches[branch], comments=comments,
    revision=revision, when=when, branch=branch)] *)
Definition make_change (author0 comments0 : string) (revision0 when0 : Z)
    (item : option string * list string) : Change :=
  {| who := author0; files := snd item; comments := comments0;
     change_revision := revision0; when := when0; branch := fst item |}.

(** [element.getElementsByTagName(tag_name)] on a log entry, for the tags
    the poller asks for: the text of the first such child, if there is
    one. *)
Definition first_child_text (el : LogEntry) (tag_name : string)
  : option string :=
  if String.eqb tag_name "author" then author el
  else if String.eqb tag_name "msg" then msg el
  else if String.eqb tag_name "date" then date el
  else None.

(** [SvnSource._get_text]: taking element [[0]] of the children with the
    tag raises [IndexError] where there is none. *)
Definition _get_text (el : LogEntry) (tag_name : string) : result string :=
  match first_child_text el tag_name with
  | Some text => Return text
  | None => Raise IndexError
  end.

(** The text of a child that is there. *)
Definition text_of (child : option string) : string :=
  match child with
  | Some text => text
  | None => EmptyString
  end.

(** The [Change] that [_create_changes] builds for one branch of an entry
    that has its [author] and [msg]. *)
Definition change_for (el : LogEntry) (when0 : Z)
    (item : option string * list string) : Change :=
  make_change (text_of (author el)) (text_of (msg el)) (revision el) when0
    item.

(** ** The poller among its collaborators

    What lies outside this module is a parameter of the development:
    [xml.dom.minidom] ([info_roots] and [log_entries] give, for the text a
    command printed, the text of its [<root>] elements and its [<logentry>]
    nodes, or [None] where [parseString] raises [ExpatError]), the [time]
    module ([strptime_mktime], [None] where [strptime] raises), the order
    in which the interpreter iterates over a dictionary ([dict_iter], from
    the items in insertion order), and the change master [self.parent]
    with its [addChange]. *)

Section Poller.

Variable info_roots : string -> option (list string).
Variable log_entries : string -> option (list LogEntry).
Variable strptime_mktime : string -> option Z.
Variable dict_iter : branches_dict -> branches_dict.
Variable Parent : Type.
Variable addChange : Change -> Parent -> Parent * result unit.

(** One [Change] per key of [branches], as [for branch in branches] goes
    through them. *)
Definition changes_of_entry (author0 comments0 : string)
    (revision0 when0 : Z) (branches : branches_dict) : list Change :=
  map (make_change author0 comments0 revision0 when0) (dict_iter branches).

(** The body of the loop of [_create_changes], for one entry: a missing
    [author], [msg] or [date] child raises [IndexError] in [_get_text], a
    date that [strptime] refuses raises [ValueError], a missing [<paths>]
    child raises [IndexError], and a path may fail in
    [_transform_path]. *)
Definition entry_changes (self : SvnSource) (el : LogEntry)
  : result (list Change) :=
  let revision0 := revision el in
  author0 <- _get_text el "author" ;;
  comments0 <- _get_text el "msg" ;;
  when_text <- _get_text el "date" ;;
  when0 <- match strptime_mktime (substring 0 19 when_text) with
           | Some t => Return t
           | None => Raise ValueError
           end ;;
  pathlist <- match paths el with
              | Some ps => Return ps
              | None => Raise IndexError
              end ;;
  branches <- group_paths self pathlist [] ;;
  Return (changes_of_entry author0 comments0 revision0 when0 branches).

(** [SvnSource._create_changes] *)
Fixpoint _create_changes (self : SvnSource) (new_logentries : list LogEntry)
  : result (list Change) :=
  match new_logentries with
  | [] => Return []
  | el :: rest =>
      changes_of_el <- entry_changes self el ;;
      changes <- _create_changes self rest ;;
      Return (changes_of_el ++ changes)
  end.

(** [SvnSource._submit_changes]: the loop has no handler, so the first
    [addChange] that raises ends it. *)
Fixpoint _submit_changes (changes : list Change) (parent : Parent)
  : Parent * result unit :=
  match changes with
  | [] => (parent, Return tt)
  | c :: rest =>
      match addChange c parent with
      | (parent1, Return _) => _submit_changes rest parent1
      | (parent1, Raise e) => (parent1, Raise e)
      end
  end.

(** [SvnSource._finished], attached with [addBoth]: it sees the result or
    the failure of the stages before it and hands it on. *)
Definition _finished {A : Type} (self : SvnSource) (res : result A)
  : SvnSource * result A :=
  if working self then (set_working self false, res)
  else (self, Raise (AssertionError "")).

(** ** Prefix resolution *)

(** [SvnSource._determine_prefix_2] *)
Definition _determine_prefix_2 (self : SvnSource) (output : string)
  : SvnSource * result string :=
  match info_roots output with
  | None => (self, Raise ExpatError)
  | Some [] => (set_prefix self (Some ""), Return "")
  | Some (root :: _) =>
      match _assert (Py.startswith (svnurl self) root)
              ("svnurl='" ++ svnurl self ++ "' doesn't start with <root>='"
               ++ root ++ "'") with
      | Raise e => (self, Raise e)
      | Return _ =>
          let prefix :=
            Py.strip_slash (Py.drop (String.length root) (svnurl self)) in
          (set_prefix self (Some prefix), Return prefix)
      end
  end.

(** ** The trigger *)

(** A call of [getProcessOutput]. *)
Record ProcessCall : Type := {
  executable : string;
  arguments : list string
}.

Definition credentials (self : SvnSource) : list string :=
  (match svnuser self with
   | Some (String c u) => [("--username=" ++ String c u)%string]
   | _ => []
   end)
  ++
  (match svnpasswd self with
   | Some (String c p) => [("--password=" ++ String c p)%string]
   | _ => []
   end).

(** [SvnSource._determine_prefix]: the command it starts. *)
Definition _determine_prefix (self : SvnSource) : ProcessCall :=
  {| executable := svnbin self;
     arguments := ["info"; "--xml"; "--non-interactive"; svnurl self]
                  ++ credentials self |}.

(** [SvnSource._get_logs]: the command it starts. *)
Definition _get_logs (self : SvnSource) : ProcessCall :=
  {| executable := svnbin self;
     arguments := ["log"; "--xml"; "--verbose"; "--non-interactive"]
                  ++ credentials self
                  ++ [("--limit=" ++ Py.str_of_int (histmax self))%string;
                      svnurl self] |}.

(** [SvnSource._parse_logs] *)
Definition _parse_logs (output : string) : result (list LogEntry) :=
  match log_entries output with
  | Some logentries => Return logentries
  | None => Raise ExpatError
  end.

(** The Deferred that [checksvn] returns, by what it waits for and what is
    attached to it. *)
Inductive Deferred : Type :=
| Succeeded
| AwaitInfo (cycle : bool)
| AwaitLog.

(** [SvnSource.checksvn]: the poller afterwards, the commands started
    before it returns, and the Deferred it returns; or [AttributeError],
    before anything is started, where [_prefix] does not exist, since
    [if not self._prefix] is the first thing it does.  [Succeeded] is
    [defer.succeed(None)] with nothing attached; [AwaitInfo cycle] waits
    for the output of [_determine_prefix], with [_determine_prefix_2]
    attached and, when [cycle], the callbacks of the cycle after it;
    [AwaitLog] is the cycle waiting for the output of [_get_logs], which a
    Deferred that has already fired calls at once. *)
Definition checksvn (self : SvnSource)
  : result (SvnSource * list ProcessCall * Deferred) :=
  match _prefix self with
  | None => Raise AttributeError
  | Some prefix =>
      let '(d, started) :=
        if negb (truthy (Some prefix))
        then (AwaitInfo false, [_determine_prefix self])
        else (Succeeded, []) in
      if working self then Return (self, started, d)
      else
        let self1 := set_working self true in
        match d with
        | Succeeded => Return (self1, started ++ [_get_logs self1], AwaitLog)
        | _ => Return (self1, started, AwaitInfo true)
        end
  end.

(** The callbacks of the cycle from [_parse_logs] on, run when the output
    of [_get_logs] (or its failure) arrives. *)
Definition log_arrived (self : SvnSource) (parent : Parent)
    (res : result string) : SvnSource * Parent * result unit :=
  match res with
  | Raise e =>
      let '(self1, r) := _finished self (Raise e) in (self1, parent, r)
  | Return output =>
      match _parse_logs output with
      | Raise e =>
          let '(self1, r) := _finished self (Raise e) in (self1, parent, r)
      | Return logentries =>
          let '(self1, new_logentries) :=
            _get_new_logentries self logentries in
          match _create_changes self1 new_logentries with
          | Raise e =>
              let '(self2, r) := _finished self1 (Raise e) in
              (self2, parent, r)
          | Return changes =>
              let '(parent1, submitted) := _submit_changes changes parent in
              let '(self2, r) := _finished self1 submitted in
              (self2, parent1, r)
          end
      end
  end.

End Poller.

(** ** Construction *)

(** [SvnSource.__init__].  A keyword that is left out is [None] here and
    takes the default of the signature.  The constructor creates no
    [_prefix] (it assigns [_root], which nothing reads): the field is
    [None], the attribute that does not exist.  [last_change] and
    [working] are the class attributes [None] and [False]. *)
Definition __init__ (svnurl0 : string)
    (split_file0 : option (string -> result split_result))
    (svnuser0 svnpasswd0 : option string) (svnbin0 : option string)
    (pollinterval0 histmax0 : option Z) : SvnSource :=
  {| svnurl := if Py.endswith svnurl0 "/" then Py.drop_last svnurl0
               else svnurl0;
     split_file_function :=
       match split_file0 with
       | Some f => f
       | None => split_file_alwaystrunk
       end;
     svnuser := svnuser0;
     svnpasswd := svnpasswd0;
     svnbin := match svnbin0 with Some b => b | None => "svn" end;
     pollinterval := match pollinterval0 with
                     | Some n => n
                     | None => 10 * 60
                     end;
     histmax := match histmax0 with Some n => n | None => 100 end;
     _prefix := None; last_change := None; working := false |}.

(** ** The cycle, event by event *)

(** What has become of a Deferred after an event: it waits on, or it has
    fired, with a failure or without. *)
Inductive Outcome : Type :=
| StillWaiting (d : Deferred)
| Fired (failure : option exn).

Definition failure_of {A : Type} (r : result A) : option exn :=
  match r with
  | Return _ => None
  | Raise e => Some e
  end.

(** The output of the command of [_determine_prefix] (or its failure)
    arrives at a Deferred [AwaitInfo cycle]: [_determine_prefix_2] runs on
    an output; then, when the cycle is attached, [_get_logs] is called on
    success, and on a failure every callback up to [_finished] is
    skipped. *)
Definition info_arrived (info_roots : string -> option (list string))
    (cycle : bool) (self : SvnSource) (res : result string)
  : SvnSource * list ProcessCall * Outcome :=
  let '(self1, r) :=
    match res with
    | Raise e => (self, Raise e)
    | Return output => _determine_prefix_2 info_roots self output
    end in
  if cycle then
    match r with
    | Return _ => (self1, [_get_logs self1], StillWaiting AwaitLog)
    | Raise e =>
        let '(self2, r2) := _finished self1 (@Raise string e) in
        (self2, [], Fired (failure_of r2))
    end
  else (self1, [], Fired (failure_of r)).

(** ** Vocabulary of the statements *)

(** Entries as the log query lists them: newest first, revisions strictly
    decreasing (hence pairwise distinct). *)
Definition newest_first (logentries : list LogEntry) : Prop :=
  StronglySorted (fun a b => revision b < revision a) logentries.



(** [pieces[0]] of [path.split('/')] *)
Definition first_segment (path : string) : string :=
  hd EmptyString (Py.split "/" path).

(** The branches of a list of (branch, file) pairs, each once, in the order
    of its first occurrence. *)
Definition add_key (seen : list (option string)) (b : option string)
  : list (option string) :=
  if existsb (branch_eqb b) seen then seen else seen ++ [b].

Definition first_seen (bs : list (option string)) : list (option string) :=
  fold_left add_key bs [].

(** The files that a list of (branch, file) pairs holds for one branch, in
    the order of the list. *)
Definition files_of (b : option string) (pairs : list (option string * string))
  : list string :=
  map snd (filter (fun bf => branch_eqb (fst bf) b) pairs).

(** The [branches] dictionary after the pairs were entered one by one. *)
Definition grouped (pairs : list (option string * string)) : branches_dict :=
  fold_left (fun d bf => branches_append (fst bf) (snd bf) d) pairs [].

(** The entry [el] with other changed paths. *)
Definition with_paths (el : LogEntry) (ps : list string) : LogEntry :=
  {| revision := revision el; author := author el; msg := msg el;
     date := date el; paths := Some ps |}.

(** An entry with all the children the builder reads, and a date that
    parses to the time [t]. *)
Definition well_formed (strptime_mktime : string -> option Z)
    (el : LogEntry) (t : Z) (ps : list string) : Prop :=
  (exists a, author el = Some a) /\
  (exists m, msg el = Some m) /\
  (exists d, date el = Some d /\
             strptime_mktime (substring 0 19 d) = Some t) /\
  paths el = Some ps.

(** ** Sample data *)

Definition sample_entry (r : Z) (ps : list string) : LogEntry :=
  {| revision := r; author := Some "warner"; msg := Some "a change";
     date := Some "2006-10-01T19:25:05.032127Z"; paths := Some ps |}.

Definition sample_poller (url : string)
    (policy : string -> result split_result)
    (prefix : option string) (lc : option Z) (busy : bool) : SvnSource :=
  {| svnurl := url; split_file_function := policy;
     svnuser := None; svnpasswd := None; svnbin := "svn";
     pollinterval := 600; histmax := 100;
     _prefix := prefix; last_change := lc; working := busy |}.

Definition poller_at (lc : option Z) : SvnSource :=
  sample_poller "svn://host/repo/proj" split_file_branches (Some "proj")
    lc true.

(** A poller of the whole repository with the trunk/branches policy. *)
Definition branches_poller : SvnSource :=
  sample_poller "svn://host/repo" split_file_branches (Some "") (Some 5) true.

(** A revision that touches the trunk, a branch and a tag. *)
Definition mixed_entry : LogEntry :=
  sample_entry 6 ["/trunk/a.c"; "/branches/1.5/b.c"; "/tags/1.0/c.c"].

(** A revision that touches a branch, then the trunk, then the branch. *)
Definition two_branch_entry : LogEntry :=
  sample_entry 6 ["/branches/1.5/b.c"; "/trunk/a.c"; "/branches/1.5/d.c"].

Definition sample_time (text : string) : option Z := Some 1159730705.

Definition sample_change (r : Z) : Change :=
  {| who := "warner"; files := ["a.c"]; comments := "a change";
     change_revision := r; when := 1159730705; branch := None |}.

(** A change master that records every [addChange] call it receives and
    raises on the change at revision 2. *)
Definition recording_addChange (c : Change) (calls : list Change)
  : list Change * result unit :=
  (calls ++ [c],
   if change_revision c =? 2 then Raise (SinkError "refused")
   else Return tt).

(** Entries in the order they are handed on: oldest first. *)
Definition oldest_first (logentries : list LogEntry) : Prop :=
  StronglySorted (fun a b => revision a < revision b) logentries.

(** Changes in the order of their revisions; a revision that touches
    several branches has several changes. *)
Definition by_revision (changes : list Change) : Prop :=
  StronglySorted (fun c d => change_revision c <= change_revision d) changes.

(** What [_transform_path] makes of the answer of the policy. *)
Definition unpacked (r : result split_result)
  : result (option string * string) :=
  match r with
  | Return (Some bf) => Return bf
  | Return None => Raise TypeError
  | Raise e => Raise e
  end.

(** The part of a path that [_transform_path] hands to the policy. *)
Definition relative_to (prefix path : string) : string :=
  Py.strip_slash (Py.drop (String.length prefix) path).

(** A change master that records every [addChange] call and accepts it. *)
Definition accepting_addChange (c : Change) (calls : list Change)
  : list Change * result unit :=
  (calls ++ [c], Return tt).

(** A poller as the constructor leaves it, watching a project directory. *)
Definition fresh_poller : SvnSource :=
  __init__ "svn://host/repo/proj/" None None None None None None.

(** ** The revision filter: properties *)

Lemma filter_older_nil (w : Z) (logentries : list LogEntry) :
  Forall (fun el => revision el < w) logentries ->
  filter (fun el => w <? revision el) logentries = [].
Proof.
  induction 1 as [|el rest Hel _ IH]; simpl; [reflexivity|].
  destruct (Z.ltb_spec w (revision el)); [lia | exact IH].
Qed.

Lemma collect_new_anchored (w : Z) (logentries : list LogEntry) :
  newest_first logentries ->
  In w (map revision logentries) ->
  collect_new w logentries = filter (fun el => w <? revision el) logentries.
Proof.
  unfold newest_first.
  induction 1 as [|el rest Hsorted IH Hall]; simpl; [intros []|].
  intros [Heq | Hin].
  - subst w. rewrite Z.eqb_refl, Z.ltb_irrefl.
    symmetry. apply filter_older_nil. exact Hall.
  - assert (Hlt : w < revision el).
    { rewrite Forall_forall in Hall.
      apply in_map_iff in Hin. destruct Hin as (el' & <- & Hin').
      apply Hall, Hin'. }
    destruct (Z.eqb_spec w (revision el)); [lia|].
    destruct (Z.ltb_spec w (revision el)); [|lia].
    f_equal. apply IH, Hin.
Qed.


Lemma filter_newer_head (w : Z) (el0 : LogEntry) (rest : list LogEntry) :
  newest_first (el0 :: rest) ->
  w = revision el0 ->
  filter (fun el => w <? revision el) (el0 :: rest) = [].
Proof.
  intros Hsorted ->. inversion Hsorted as [|? ? _ Hall]; subst.
  simpl. rewrite Z.ltb_irrefl. apply filter_older_nil, Hall.
Qed.

(** C2 (as the code has it): on an empty list of entries the filter
    returns [(None, [])] whatever the watermark was, and
    [_get_new_logentries] stores that [None]: an integer watermark is
    reset, not kept. *)
Theorem filter_empty_resets_watermark (self : SvnSource) :
  _filter_new_logentries self [] (last_change self) = (self, (None, [])) /\
  _get_new_logentries self [] = (set_last_change self None, []) /\
  last_change (fst (_get_new_logentries (poller_at (Some 5)) [])) = None.
Proof.
  repeat split.
Qed.

(** C3: on a non-empty newest-first list with strictly decreasing revisions
    and a watermark [w] that is the revision of one of its entries, the
    filter returns exactly the entries with a revision greater than [w],
    oldest first, and the new watermark is the revision of the first
    (newest) entry; the poller is left as it was. *)
Theorem filter_returns_newer_oldest_first
    (self : SvnSource) (logentries : list LogEntry) (w : Z) :
  logentries <> [] ->
  newest_first logentries ->
  In w (map revision logentries) ->
  _filter_new_logentries self logentries (Some w) =
    (self, (option_map revision (hd_error logentries),
            rev (filter (fun el => w <? revision el) logentries))).
Proof.
  intros Hne Hsorted Hin.
  destruct logentries as [|el0 rest]; [congruence|].
  cbn [_filter_new_logentries hd_error option_map].
  destruct (Z.eqb_spec w (revision el0)) as [Heq | Hneq].
  - rewrite (filter_newer_head w el0 rest Hsorted Heq). reflexivity.
  - rewrite (collect_new_anchored w (el0 :: rest) Hsorted Hin). reflexivity.
Qed.

(** C4: with no watermark yet, a non-empty list makes the filter return no
    new entries and the revision of the first (newest) entry as watermark,
    which [_get_new_logentries] stores; the entries handed on are none, so
    the change builder makes no [Change] from that poll. *)
Theorem first_poll_emits_nothing
    (strptime_mktime : string -> option Z)
    (dict_iter : branches_dict -> branches_dict)
    (self : SvnSource) (el0 : LogEntry) (rest : list LogEntry) :
  last_change self = None ->
  _filter_new_logentries self (el0 :: rest) (last_change self) =
    (set_last_change self (Some (revision el0)), (Some (revision el0), [])) /\
  _get_new_logentries self (el0 :: rest) =
    (set_last_change self (Some (revision el0)), []) /\
  _create_changes strptime_mktime dict_iter
    (fst (_get_new_logentries self (el0 :: rest)))
    (snd (_get_new_logentries self (el0 :: rest))) = Return [].
Proof.
  intros Hnone. unfold _get_new_logentries. rewrite Hnone.
  repeat split.
Qed.

Lemma first_poll_emits_nothing_witness :
  _get_new_logentries (poller_at None)
    [sample_entry 7 ["proj/trunk/a.c"]; sample_entry 6 ["proj/trunk/b.c"]] =
    (poller_at (Some 7), []).
Proof.
  apply (first_poll_emits_nothing (fun _ => Some 0) (fun d => d)
           (poller_at None) (sample_entry 7 ["proj/trunk/a.c"])
           [sample_entry 6 ["proj/trunk/b.c"]]).
  reflexivity.
Defined.

Lemma filter_returns_newer_oldest_first_witness :
  _filter_new_logentries (poller_at (Some 5))
    [sample_entry 8 []; sample_entry 7 []; sample_entry 5 [];
     sample_entry 2 []] (Some 5) =
    (poller_at (Some 5), (Some 8, [sample_entry 7 []; sample_entry 8 []])).
Proof.
  apply (filter_returns_newer_oldest_first (poller_at (Some 5))
           [sample_entry 8 []; sample_entry 7 []; sample_entry 5 [];
            sample_entry 2 []] 5).
  - discriminate.
  - unfold newest_first. repeat constructor; simpl; lia.
  - simpl. tauto.
Defined.






(** ** The path policies: properties *)

Lemma split_not_nil (sep : ascii) (s : string) : Py.split sep s <> [].
Proof.
  destruct s as [|c s]; simpl; [discriminate|].
  destruct (Ascii.eqb c sep); [discriminate|].
  destruct (Py.split sep s); discriminate.
Qed.

Lemma join_cons (sep x : string) (l : list string) :
  l <> [] -> Py.join sep (x :: l) = (x ++ sep ++ Py.join sep l)%string.
Proof.
  destruct l; [congruence | reflexivity].
Qed.

(** Joining the pieces of a split gives the string back. *)
Lemma join_split (sep : ascii) (s : string) :
  Py.join (String sep EmptyString) (Py.split sep s) = s.
Proof.
  induction s as [|c s IH]; [reflexivity|].
  cbn [Py.split].
  destruct (Ascii.eqb_spec c sep) as [-> | Hc].
  - rewrite join_cons by apply split_not_nil. rewrite IH. reflexivity.
  - pose proof (split_not_nil sep s) as Hne.
    destruct (Py.split sep s) as [|p ps]; [congruence|].
    destruct ps as [|q qs].
    + simpl in *. now rewrite IH.
    + rewrite join_cons by discriminate.
      rewrite join_cons in IH by discriminate.
      simpl in *. f_equal. exact IH.
Qed.

Lemma split_no_sep (sep : ascii) (a : string) :
  Py.contains sep a = false -> Py.split sep a = [a].
Proof.
  induction a as [|c a IH]; simpl; [reflexivity|].
  intros H. apply orb_false_iff in H. destruct H as [Hc Ha].
  rewrite Hc, (IH Ha). reflexivity.
Qed.

Lemma split_app_sep (sep : ascii) (a b : string) :
  Py.contains sep a = false ->
  Py.split sep (a ++ String sep b) = a :: Py.split sep b.
Proof.
  induction a as [|c a IH]; simpl.
  - intros _. now rewrite Ascii.eqb_refl.
  - intros H. apply orb_false_iff in H. destruct H as [Hc Ha].
    rewrite Hc, (IH Ha). reflexivity.
Qed.

(** The first piece of a split holds no separator; it is the whole string,
    or what precedes the first separator. *)
Lemma split_inv (sep : ascii) (s p : string) (ps : list string) :
  Py.split sep s = p :: ps ->
  Py.contains sep p = false /\
  ((ps = [] /\ s = p) \/
   (exists s', s = (p ++ String sep s')%string /\ ps = Py.split sep s')).
Proof.
  revert p ps. induction s as [|c s IH]; intros p ps; simpl.
  - intros H. injection H as <- <-. split; [reflexivity | left; split; reflexivity].
  - destruct (Ascii.eqb c sep) eqn:Hc.
    + intros H. injection H as <- <-. split; [reflexivity|].
      right. exists s. apply Ascii.eqb_eq in Hc. subst c.
      split; reflexivity.
    + destruct (Py.split sep s) as [|q qs] eqn:Hs.
      * exfalso. exact (split_not_nil sep s Hs).
      * intros H. injection H as <- <-.
        destruct (IH q qs eq_refl) as [Hq Hshape].
        split; [simpl; now rewrite Hc, Hq|].
        destruct Hshape as [[-> ->] | (s' & -> & ->)].
        -- left. split; reflexivity.
        -- right. exists s'. split; reflexivity.
Qed.

Lemma split_file_branches_trunk (rest : string) :
  split_file_branches ("trunk/" ++ rest) = Return (Some (None, rest)).
Proof.
  unfold split_file_branches.
  change ("trunk/" ++ rest)%string with ("trunk" ++ String "/" rest)%string.
  rewrite split_app_sep by reflexivity.
  cbn [String.eqb]. simpl (String.eqb _ _).
  now rewrite (join_split "/" rest).
Qed.

Lemma split_file_branches_branch (name rest : string) :
  Py.contains "/" name = false ->
  split_file_branches ("branches/" ++ name ++ "/" ++ rest) =
    Return (Some (Some name, rest)).
Proof.
  intros Hname. unfold split_file_branches.
  change ("branches/" ++ name ++ "/" ++ rest)%string
    with ("branches" ++ String "/" (name ++ String "/" rest))%string.
  rewrite split_app_sep by reflexivity.
  rewrite (split_app_sep "/" name rest Hname).
  simpl (String.eqb _ _).
  now rewrite (join_split "/" rest).
Qed.

Lemma split_file_branches_branch_only (name : string) :
  Py.contains "/" name = false ->
  split_file_branches ("branches/" ++ name) = Return (Some (Some name, "")).
Proof.
  intros Hname. unfold split_file_branches.
  change ("branches/" ++ name)%string
    with ("branches" ++ String "/" name)%string.
  rewrite split_app_sep by reflexivity.
  rewrite (split_no_sep "/" name Hname).
  reflexivity.
Qed.

Lemma split_file_branches_raises (path : string) (e : exn) :
  split_file_branches path = Raise e -> path = "branches" /\ e = IndexError.
Proof.
  unfold split_file_branches.
  destruct (Py.split "/" path) as [|p ps] eqn:Hsplit.
  - exfalso. exact (split_not_nil "/" path Hsplit).
  - destruct (String.eqb_spec p "trunk"); [discriminate|].
    destruct (String.eqb_spec p "branches") as [-> | _]; [|discriminate].
    destruct ps as [|q qs]; [|discriminate].
    intros H. injection H as <-.
    destruct (split_inv "/" path "branches" [] Hsplit) as [_ [[_ ->] | (s' & _ & H)]].
    + split; reflexivity.
    + exfalso. symmetry in H. exact (split_not_nil "/" s' H).
Qed.

Lemma split_file_branches_excluded (path : string) :
  first_segment path <> "trunk" ->
  first_segment path <> "branches" ->
  split_file_branches path = Return None.
Proof.
  unfold first_segment, split_file_branches.
  destruct (Py.split "/" path) as [|p ps] eqn:Hsplit.
  - exfalso. exact (split_not_nil "/" path Hsplit).
  - simpl. intros Ht Hb.
    destruct (String.eqb_spec p "trunk"); [congruence|].
    destruct (String.eqb_spec p "branches"); [congruence|].
    reflexivity.
Qed.

(** C10: [split_file_branches] is not total.  A path whose first segment is
    ["branches"] and that has no second segment, which is the path
    ["branches"] and no other, makes [pieces[1]] fail with [IndexError];
    this is the only input on which the policy raises.  A leading
    ["trunk"] gives [(None, rest)], ["branches/<name>/..."] gives
    [(name, rest)], and any other first segment gives the excluded
    result. *)
Theorem split_file_branches_cases :
  (forall path,
     first_segment path = "branches" ->
     List.length (Py.split "/" path) = 1%nat ->
     path = "branches" /\ split_file_branches path = Raise IndexError) /\
  (forall path e,
     split_file_branches path = Raise e -> path = "branches" /\ e = IndexError) /\
  split_file_branches "trunk" = Return (Some (None, "")) /\
  (forall rest,
     split_file_branches ("trunk/" ++ rest) = Return (Some (None, rest))) /\
  (forall name rest,
     Py.contains "/" name = false ->
     split_file_branches ("branches/" ++ name) =
       Return (Some (Some name, "")) /\
     split_file_branches ("branches/" ++ name ++ "/" ++ rest) =
       Return (Some (Some name, rest))) /\
  (forall path,
     first_segment path <> "trunk" ->
     first_segment path <> "branches" ->
     split_file_branches path = Return None).
Proof.
  split; [|split; [|split; [|split; [|split]]]].
  - intros path Hfirst Hlen. unfold first_segment in Hfirst.
    destruct (Py.split "/" path) as [|p [|q qs]] eqn:Hsplit;
      try discriminate Hlen.
    simpl in Hfirst. subst p.
    destruct (split_inv "/" path "branches" [] Hsplit)
      as [_ [[_ ->] | (s' & _ & H)]].
    + split; reflexivity.
    + exfalso. symmetry in H. exact (split_not_nil "/" s' H).
  - exact split_file_branches_raises.
  - reflexivity.
  - exact split_file_branches_trunk.
  - intros name rest Hname. split.
    + exact (split_file_branches_branch_only name Hname).
    + exact (split_file_branches_branch name rest Hname).
  - exact split_file_branches_excluded.
Qed.

Lemma split_file_branches_cases_witness :
  split_file_branches "branches" = Raise IndexError /\
  split_file_branches "trunk/a/b" = Return (Some (None, "a/b")) /\
  split_file_branches "branches/1.5/x" = Return (Some (Some "1.5", "x")) /\
  split_file_branches "tags/1.0/x" = Return None.
Proof.
  destruct split_file_branches_cases
    as (Hfail & _ & _ & Htrunk & Hbranch & Hother).
  split; [|split; [|split]].
  - apply (Hfail "branches"); reflexivity.
  - apply (Htrunk "a/b").
  - apply (Hbranch "1.5" "x"). reflexivity.
  - apply (Hother "tags/1.0/x"); unfold first_segment; simpl; discriminate.
Defined.

(** ** Prefix resolution: properties *)

Lemma startswith_app (p r : string) : Py.startswith (p ++ r) p = true.
Proof.
  induction p as [|c p IH]; simpl; [reflexivity|].
  now rewrite Ascii.eqb_refl, IH.
Qed.

Lemma startswith_inv (s p : string) :
  Py.startswith s p = true -> exists r, s = (p ++ r)%string.
Proof.
  revert s. induction p as [|c p IH]; intros s; simpl.
  - intros _. exists s. reflexivity.
  - destruct s as [|d s]; [discriminate|].
    intros H. apply andb_true_iff in H. destruct H as [Hd Hs].
    apply Ascii.eqb_eq in Hd. subst d.
    destruct (IH s Hs) as (r & ->). exists r. reflexivity.
Qed.

Lemma drop_app (p r : string) : Py.drop (String.length p) (p ++ r) = r.
Proof.
  induction p as [|c p IH]; simpl; [reflexivity | exact IH].
Qed.

(** C8: with a [<root>] that the watched URL starts with, the prefix that
    is cached and returned is the URL without the root and without one
    leading ["/"]; it is the empty string when the URL is the root, and
    when the response has no [<root>] element.  With a [<root>] that the
    URL does not start with, the call raises [AssertionError] and the
    poller, its prefix included, is left as it was. *)
Theorem determine_prefix_2_cases
    (info_roots : string -> option (list string))
    (self : SvnSource) (output : string) :
  (info_roots output = Some [] ->
   _determine_prefix_2 info_roots self output =
     (set_prefix self (Some ""), Return "")) /\
  (forall root others rest,
     info_roots output = Some (root :: others) ->
     svnurl self = (root ++ rest)%string ->
     _determine_prefix_2 info_roots self output =
       (set_prefix self (Some (Py.strip_slash rest)),
        Return (Py.strip_slash rest))) /\
  (forall root others,
     info_roots output = Some (root :: others) ->
     svnurl self = root ->
     _determine_prefix_2 info_roots self output =
       (set_prefix self (Some ""), Return "")) /\
  (forall root others,
     info_roots output = Some (root :: others) ->
     (forall rest, svnurl self <> (root ++ rest)%string) ->
     exists text,
       _determine_prefix_2 info_roots self output =
         (self, Raise (AssertionError text))) /\
  (forall rest, Py.strip_slash (String "/" rest) = rest) /\
  (forall rest, Py.startswith rest "/" = false -> Py.strip_slash rest = rest).
Proof.
  assert (Hcut : forall root others rest,
             info_roots output = Some (root :: others) ->
             svnurl self = (root ++ rest)%string ->
             _determine_prefix_2 info_roots self output =
               (set_prefix self (Some (Py.strip_slash rest)),
                Return (Py.strip_slash rest))).
  { intros root others rest Hroots Hurl.
    unfold _determine_prefix_2. rewrite Hroots, Hurl.
    rewrite startswith_app, drop_app. reflexivity. }
  split; [|split; [|split; [|split; [|split]]]].
  - intros Hroots. unfold _determine_prefix_2. now rewrite Hroots.
  - exact Hcut.
  - intros root others Hroots Hurl.
    apply (Hcut root others EmptyString Hroots).
    rewrite Hurl. clear. induction root; simpl; congruence.
  - intros root others Hroots Hnot.
    unfold _determine_prefix_2. rewrite Hroots.
    destruct (Py.startswith (svnurl self) root) eqn:Hstart.
    + destruct (startswith_inv _ _ Hstart) as (r & Hr).
      exfalso. exact (Hnot r Hr).
    + eexists. reflexivity.
  - reflexivity.
  - intros rest Hrest. unfold Py.strip_slash. now rewrite Hrest.
Qed.

Lemma determine_prefix_2_cases_witness :
  _determine_prefix_2 (fun _ => Some ["svn://host/repo"])
    (sample_poller "svn://host/repo/proj/trunk" split_file_alwaystrunk
       None None false) "<info/>" =
    (sample_poller "svn://host/repo/proj/trunk" split_file_alwaystrunk
       (Some "proj/trunk") None false, Return "proj/trunk") /\
  _determine_prefix_2 (fun _ => Some ["svn://host/repo"])
    (sample_poller "svn://host/repo" split_file_alwaystrunk
       None None false) "<info/>" =
    (sample_poller "svn://host/repo" split_file_alwaystrunk
       (Some "") None false, Return "") /\
  _determine_prefix_2 (fun _ => Some [])
    (sample_poller "svn://host/repo" split_file_alwaystrunk
       None None false) "<info/>" =
    (sample_poller "svn://host/repo" split_file_alwaystrunk
       (Some "") None false, Return "") /\
  (exists text,
     _determine_prefix_2 (fun _ => Some ["svn://other/repo"])
       (sample_poller "svn://host/repo/proj/trunk" split_file_alwaystrunk
          None None false) "<info/>" =
       (sample_poller "svn://host/repo/proj/trunk" split_file_alwaystrunk
          None None false, Raise (AssertionError text))).
Proof.
  split; [|split; [|split]].
  - destruct (determine_prefix_2_cases (fun _ => Some ["svn://host/repo"])
                (sample_poller "svn://host/repo/proj/trunk"
                   split_file_alwaystrunk None None false) "<info/>")
      as (_ & Hcut & _).
    apply (Hcut "svn://host/repo" [] "/proj/trunk"); reflexivity.
  - destruct (determine_prefix_2_cases (fun _ => Some ["svn://host/repo"])
                (sample_poller "svn://host/repo"
                   split_file_alwaystrunk None None false) "<info/>")
      as (_ & _ & Hroot & _).
    apply (Hroot "svn://host/repo" []); reflexivity.
  - destruct (determine_prefix_2_cases (fun _ => Some [])
                (sample_poller "svn://host/repo"
                   split_file_alwaystrunk None None false) "<info/>")
      as (Hnone & _).
    apply Hnone. reflexivity.
  - destruct (determine_prefix_2_cases (fun _ => Some ["svn://other/repo"])
                (sample_poller "svn://host/repo/proj/trunk"
                   split_file_alwaystrunk None None false) "<info/>")
      as (_ & _ & _ & Hfail & _).
    apply (Hfail "svn://other/repo" []).
    + reflexivity.
    + intros rest H. simpl in H. discriminate H.
Defined.

(** ** The change builder: properties *)

Lemma branch_eqb_spec (a b : option string) : reflect (a = b) (branch_eqb a b).
Proof.
  destruct a as [x|], b as [y|]; simpl; try (constructor; congruence).
  destruct (String.eqb_spec x y); constructor; congruence.
Qed.

Lemma existsb_branch_In (b : option string) (seen : list (option string)) :
  existsb (branch_eqb b) seen = true <-> In b seen.
Proof.
  rewrite existsb_exists. split.
  - intros (k & Hk & Heq).
    destruct (branch_eqb_spec b k); [now subst | discriminate].
  - intros Hin. exists b. split; [exact Hin|].
    destruct (branch_eqb_spec b b); congruence.
Qed.

Lemma first_seen_snoc (bs : list (option string)) (b : option string) :
  first_seen (bs ++ [b]) = add_key (first_seen bs) b.
Proof.
  unfold first_seen. now rewrite fold_left_app.
Qed.

Lemma first_seen_In (bs : list (option string)) (b : option string) :
  In b (first_seen bs) <-> In b bs.
Proof.
  induction bs as [|k bs IH] using rev_ind; [reflexivity|].
  rewrite first_seen_snoc. unfold add_key.
  destruct (existsb (branch_eqb k) (first_seen bs)) eqn:Hk.
  - apply existsb_branch_In in Hk. rewrite in_app_iff, IH. simpl.
    split; [tauto|]. intros [H | [<- | []]]; [exact H | now apply IH].
  - rewrite !in_app_iff, IH. reflexivity.
Qed.

Lemma first_seen_NoDup (bs : list (option string)) : NoDup (first_seen bs).
Proof.
  induction bs as [|k bs IH] using rev_ind; [constructor|].
  rewrite first_seen_snoc. unfold add_key.
  destruct (existsb (branch_eqb k) (first_seen bs)) eqn:Hk; [exact IH|].
  assert (Hnot : ~ In k (first_seen bs)).
  { intros Hin. apply existsb_branch_In in Hin. congruence. }
  clear Hk. induction IH as [|x l Hx Hl IHl]; simpl.
  - constructor; [intros [] | constructor].
  - constructor.
    + rewrite in_app_iff. simpl. intros [H | [H | []]]; [tauto|].
      subst. apply Hnot. now left.
    + apply IHl. intros H. apply Hnot. now right.
Qed.

Lemma files_of_snoc (k b : option string) (f : string)
    (pairs : list (option string * string)) :
  files_of k (pairs ++ [(b, f)]) =
    files_of k pairs ++ (if branch_eqb b k then [f] else []).
Proof.
  unfold files_of. rewrite filter_app, map_app. simpl.
  destruct (branch_eqb b k); reflexivity.
Qed.

Lemma files_of_absent (b : option string)
    (pairs : list (option string * string)) :
  ~ In b (map fst pairs) -> files_of b pairs = [].
Proof.
  unfold files_of. induction pairs as [|[k f] pairs IH]; simpl; [reflexivity|].
  intros Hnot. destruct (branch_eqb_spec k b) as [-> | _]; [tauto|].
  apply IH. tauto.
Qed.

(** Entering one more pair into a dictionary that groups [pairs]. *)
Lemma branches_append_grouped (b : option string) (f : string)
    (pairs : list (option string * string)) (seen : list (option string)) :
  NoDup seen ->
  (~ In b seen -> files_of b pairs = []) ->
  branches_append b f (map (fun k => (k, files_of k pairs)) seen) =
    map (fun k => (k, files_of k (pairs ++ [(b, f)]))) (add_key seen b).
Proof.
  unfold add_key.
  induction 1 as [|k seen Hk Hnodup IH]; intros Habsent.
  - simpl. rewrite files_of_snoc, Habsent by tauto.
    destruct (branch_eqb_spec b b); [reflexivity | congruence].
  - cbn [map branches_append existsb].
    destruct (branch_eqb_spec k b) as [-> | Hkb].
    + destruct (branch_eqb_spec b b); [|congruence]. cbn [orb map].
      rewrite files_of_snoc.
      destruct (branch_eqb_spec b b); [|congruence].
      f_equal. apply map_ext_in. intros k Hin.
      rewrite files_of_snoc.
      destruct (branch_eqb_spec b k); [subst; tauto|].
      now rewrite app_nil_r.
    + destruct (branch_eqb_spec b k); [congruence|]. cbn [orb].
      rewrite IH by (intros Hn; apply Habsent; simpl; tauto).
      destruct (existsb (branch_eqb b) seen); cbn [map app];
        rewrite files_of_snoc;
        (destruct (branch_eqb_spec b k); [congruence|]);
        now rewrite app_nil_r.
Qed.

(** The dictionary holds one item per branch, in the order in which the
    branches were first met, each with the files of that branch only. *)
Lemma grouped_by_branch (pairs : list (option string * string)) :
  grouped pairs =
    map (fun k => (k, files_of k pairs)) (first_seen (map fst pairs)).
Proof.
  induction pairs as [|[b f] pairs IH] using rev_ind; [reflexivity|].
  unfold grouped in *. rewrite fold_left_app. cbn [fold_left fst snd].
  rewrite IH, map_app. cbn [map fst]. rewrite first_seen_snoc.
  apply branches_append_grouped; [apply first_seen_NoDup|].
  intros Hnot. apply files_of_absent.
  intros Hin. apply Hnot, first_seen_In, Hin.
Qed.

Lemma grouped_snoc (pairs : list (option string * string))
    (bf : option string * string) :
  grouped (pairs ++ [bf]) = branches_append (fst bf) (snd bf) (grouped pairs).
Proof.
  unfold grouped. now rewrite fold_left_app.
Qed.

(** When every path of an entry is turned into a pair, the loop over the
    paths enters the pairs in order. *)
Lemma group_paths_grouped (self : SvnSource) (ps : list string)
    (pairs : list (option string * string)) :
  Forall2 (fun p bf => _transform_path self (Py.strip_slash p) = Return bf)
    ps pairs ->
  forall entered,
    group_paths self ps (grouped entered) = Return (grouped (entered ++ pairs)).
Proof.
  induction 1 as [|p [b f] ps pairs Hp _ IH]; intros entered.
  - now rewrite app_nil_r.
  - cbn [group_paths]. rewrite Hp. cbn [bind].
    change (branches_append b f (grouped entered))
      with (branches_append (fst (b, f)) (snd (b, f)) (grouped entered)).
    rewrite <- grouped_snoc, IH, <- app_assoc. reflexivity.
Qed.

Lemma transform_path_excluded (self : SvnSource) (prefix path : string) :
  _prefix self = Some prefix ->
  split_file self
    (Py.strip_slash (Py.drop (String.length prefix) path)) = Return None ->
  _transform_path self path =
    if Py.startswith path prefix then Raise TypeError
    else Raise (AssertionError
                  ("filepath '" ++ path ++ "' should start with prefix '"
                   ++ prefix ++ "'")).
Proof.
  intros Hprefix Hsplit. unfold _transform_path. rewrite Hprefix.
  destruct (Py.startswith path prefix); cbn [_assert bind]; [|reflexivity].
  now rewrite Hsplit.
Qed.

Lemma group_paths_raises (self : SvnSource) (ps : list string) (p : string) :
  In p ps ->
  (exists e, _transform_path self (Py.strip_slash p) = Raise e) ->
  forall branches, exists e, group_paths self ps branches = Raise e.
Proof.
  intros Hin (e & He).
  induction ps as [|q ps IH]; [destruct Hin|].
  intros branches. cbn [group_paths].
  destruct Hin as [-> | Hin].
  - rewrite He. exists e. reflexivity.
  - destruct (_transform_path self (Py.strip_slash q)) as [[b f]|e'].
    + cbn [bind]. apply (IH Hin).
    + exists e'. reflexivity.
Qed.

(** An entry with all its children: what is left of the loop body. *)
Lemma entry_changes_well_formed
    (strptime_mktime : string -> option Z)
    (dict_iter : branches_dict -> branches_dict)
    (self : SvnSource) (el : LogEntry) (t : Z) (ps : list string) :
  well_formed strptime_mktime el t ps ->
  entry_changes strptime_mktime dict_iter self el =
    (branches <- group_paths self ps [] ;;
     Return (map (change_for el t) (dict_iter branches))).
Proof.
  intros ((a & Ha) & (m & Hm) & (d & Hd & Ht) & Hps).
  unfold entry_changes, _get_text, first_child_text, change_for.
  cbn [String.eqb Ascii.eqb Bool.eqb].
  rewrite Ha, Hm, Hd. cbn [bind]. rewrite Ht, Hps. cbn [bind text_of].
  destruct (group_paths self ps []); reflexivity.
Qed.

Lemma entry_changes_raises
    (strptime_mktime : string -> option Z)
    (dict_iter : branches_dict -> branches_dict)
    (self : SvnSource) (el : LogEntry) (ps : list string) :
  paths el = Some ps ->
  (exists e, group_paths self ps [] = Raise e) ->
  exists e, entry_changes strptime_mktime dict_iter self el = Raise e.
Proof.
  intros Hps (e & He).
  unfold entry_changes, _get_text, first_child_text.
  cbn [String.eqb Ascii.eqb Bool.eqb].
  destruct (author el); [|eexists; reflexivity].
  destruct (msg el); [|eexists; reflexivity].
  destruct (date el) as [d|]; [|eexists; reflexivity].
  cbn [bind].
  destruct (strptime_mktime (substring 0 19 d)); [|eexists; reflexivity].
  cbn [bind]. rewrite Hps. cbn [bind]. rewrite He.
  eexists. reflexivity.
Qed.

Lemma create_changes_raises
    (strptime_mktime : string -> option Z)
    (dict_iter : branches_dict -> branches_dict)
    (self : SvnSource) (els : list LogEntry) (el : LogEntry) :
  In el els ->
  (exists e, entry_changes strptime_mktime dict_iter self el = Raise e) ->
  exists e, _create_changes strptime_mktime dict_iter self els = Raise e.
Proof.
  intros Hin (e & He).
  induction els as [|el' els IH]; [destruct Hin|].
  cbn [_create_changes].
  destruct Hin as [-> | Hin].
  - rewrite He. exists e. reflexivity.
  - destruct (entry_changes strptime_mktime dict_iter self el')
      as [changes|e']; [|exists e'; reflexivity].
    cbn [bind]. destruct (IH Hin) as (e'' & ->). exists e''. reflexivity.
Qed.

(** C6 (as the code has it): a path for which the policy returns the
    excluded result is not discarded.  [_transform_path] unpacks the result
    into [branch, final_path] and raises [TypeError] on [None], so
    [_create_changes] fails on every batch that holds an entry with such a
    path and builds no [Change] at all, those of the kept paths
    included. *)
Theorem excluded_path_fails_builder
    (strptime_mktime : string -> option Z)
    (dict_iter : branches_dict -> branches_dict)
    (self : SvnSource) (prefix : string)
    (els : list LogEntry) (el : LogEntry) (ps : list string) (p : string) :
  _prefix self = Some prefix ->
  In el els ->
  paths el = Some ps ->
  In p ps ->
  Py.startswith (Py.strip_slash p) prefix = true ->
  split_file self
    (Py.strip_slash (Py.drop (String.length prefix) (Py.strip_slash p)))
    = Return None ->
  _transform_path self (Py.strip_slash p) = Raise TypeError /\
  exists e, _create_changes strptime_mktime dict_iter self els = Raise e.
Proof.
  intros Hprefix Hel Hps Hp Hstart Hsplit.
  pose proof (transform_path_excluded self prefix (Py.strip_slash p)
                Hprefix Hsplit) as Hraise.
  rewrite Hstart in Hraise.
  split; [exact Hraise|].
  apply (create_changes_raises _ _ self els el Hel).
  apply (entry_changes_raises _ _ self el ps Hps).
  apply (group_paths_raises self ps p Hp).
  exists TypeError. exact Hraise.
Qed.

Lemma excluded_path_fails_builder_witness :
  _transform_path branches_poller "tags/1.0/c.c" = Raise TypeError /\
  exists e,
    _create_changes sample_time (fun d => d) branches_poller
      [sample_entry 6 ["/trunk/a.c"; "/tags/1.0/c.c"]] = Raise e.
Proof.
  apply (excluded_path_fails_builder sample_time (fun d => d)
           branches_poller ""
           [sample_entry 6 ["/trunk/a.c"; "/tags/1.0/c.c"]]
           (sample_entry 6 ["/trunk/a.c"; "/tags/1.0/c.c"])
           ["/trunk/a.c"; "/tags/1.0/c.c"]
           "/tags/1.0/c.c").
  - reflexivity.
  - simpl. tauto.
  - reflexivity.
  - simpl. tauto.
  - reflexivity.
  - reflexivity.
Defined.

(** The same batch, evaluated: the [Change] for [trunk/a.c] is lost with
    the failure. *)
Lemma excluded_path_raises_TypeError
    (dict_iter : branches_dict -> branches_dict) :
  _create_changes sample_time dict_iter branches_poller
    [sample_entry 6 ["/trunk/a.c"; "/tags/1.0/c.c"]] = Raise TypeError.
Proof.
  reflexivity.
Qed.

(** The batch of C7, evaluated. *)
Lemma mixed_entry_raises_TypeError
    (dict_iter : branches_dict -> branches_dict) :
  _create_changes sample_time dict_iter branches_poller [mixed_entry]
    = Raise TypeError.
Proof.
  reflexivity.
Qed.

Lemma group_paths_raises_at (self : SvnSource)
    (before after : list string) (p : string) (e : exn)
    (pairs : list (option string * string)) :
  Forall2 (fun q bf => _transform_path self (Py.strip_slash q) = Return bf)
    before pairs ->
  _transform_path self (Py.strip_slash p) = Raise e ->
  forall branches,
    group_paths self (before ++ p :: after) branches = Raise e.
Proof.
  intros Hbefore Hp.
  induction Hbefore as [|q [b f] before pairs Hq _ IH]; intros branches.
  - cbn [app group_paths]. now rewrite Hp.
  - cbn [app group_paths]. rewrite Hq. cbn [bind]. apply IH.
Qed.

(** C7 (as the code has it): an entry whose surviving paths lie in two
    branches, and which also lists a path that the policy excludes,
    anywhere among them, yields no [Change] at all: the builder raises.
    It raises [TypeError], at the excluded path, when the entry has all
    its children and a date that parses. *)
Theorem two_branches_with_excluded_path_fail
    (strptime_mktime : string -> option Z)
    (dict_iter : branches_dict -> branches_dict)
    (self : SvnSource) (prefix : string) (el : LogEntry) (t : Z)
    (before after : list string) (p : string)
    (pairs : list (option string * string)) (b1 b2 : option string) :
  _prefix self = Some prefix ->
  paths el = Some (before ++ p :: after) ->
  Forall2 (fun q bf => _transform_path self (Py.strip_slash q) = Return bf)
    (before ++ after) pairs ->
  first_seen (map fst pairs) = [b1; b2] ->
  Py.startswith (Py.strip_slash p) prefix = true ->
  split_file self
    (Py.strip_slash (Py.drop (String.length prefix) (Py.strip_slash p)))
    = Return None ->
  (exists e, _create_changes strptime_mktime dict_iter self [el] = Raise e) /\
  (well_formed strptime_mktime el t (before ++ p :: after) ->
   _create_changes strptime_mktime dict_iter self [el] = Raise TypeError).
Proof.
  intros Hprefix Hps Hpairs _ Hstart Hsplit.
  pose proof (transform_path_excluded self prefix (Py.strip_slash p)
                Hprefix Hsplit) as Hraise.
  rewrite Hstart in Hraise.
  apply Forall2_app_inv_l in Hpairs.
  destruct Hpairs as (pairs1 & pairs2 & Hbefore & _ & _).
  pose proof (group_paths_raises_at self before after p TypeError pairs1
                Hbefore Hraise []) as Hgroup.
  split.
  - apply (create_changes_raises _ _ self [el] el); [now left|].
    apply (entry_changes_raises _ _ self el _ Hps).
    exists TypeError. exact Hgroup.
  - intros Hwf. cbn [_create_changes].
    rewrite (entry_changes_well_formed _ _ self el t _ Hwf), Hgroup.
    reflexivity.
Qed.

Lemma two_branches_with_excluded_path_fail_witness :
  _create_changes sample_time (fun d => d) branches_poller [mixed_entry]
    = Raise TypeError.
Proof.
  apply (two_branches_with_excluded_path_fail sample_time (fun d => d)
           branches_poller "" mixed_entry 1159730705
           ["/trunk/a.c"; "/branches/1.5/b.c"] [] "/tags/1.0/c.c"
           [(None, "a.c"); (Some "1.5", "b.c")] None (Some "1.5")).
  - reflexivity.
  - reflexivity.
  - repeat constructor.
  - reflexivity.
  - reflexivity.
  - reflexivity.
  - unfold well_formed, mixed_entry, sample_entry. cbn.
    repeat split; eexists; try split; reflexivity.
Defined.

(** Without the excluded path: an entry that has all its children and a
    date that parses, and whose paths are all turned into pairs lying in
    two branches, makes the builder produce two changes, one per branch,
    each with the files of that branch only, in path order.  They come in
    the order in which the dictionary is iterated: that of first
    occurrence when the dictionary keeps insertion order. *)
Lemma two_branches_two_changes
    (strptime_mktime : string -> option Z)
    (dict_iter : branches_dict -> branches_dict)
    (self : SvnSource) (el : LogEntry) (t : Z) (ps : list string)
    (pairs : list (option string * string)) (b1 b2 : option string) :
  well_formed strptime_mktime el t ps ->
  Forall2 (fun p bf => _transform_path self (Py.strip_slash p) = Return bf)
    ps pairs ->
  first_seen (map fst pairs) = [b1; b2] ->
  _create_changes strptime_mktime dict_iter self [el] =
    Return (map (change_for el t)
              (dict_iter [(b1, files_of b1 pairs); (b2, files_of b2 pairs)]))
  /\
  ((forall d, dict_iter d = d) ->
   _create_changes strptime_mktime dict_iter self [el] =
     Return [change_for el t (b1, files_of b1 pairs);
             change_for el t (b2, files_of b2 pairs)]).
Proof.
  intros Hwf Hpairs Hseen.
  pose proof (group_paths_grouped self ps pairs Hpairs []) as Hgroup.
  change (grouped []) with (@nil (option string * list string)) in Hgroup.
  cbn [app] in Hgroup. rewrite grouped_by_branch, Hseen in Hgroup.
  cbn [map] in Hgroup.
  assert (Hbuilt :
            _create_changes strptime_mktime dict_iter self [el] =
              Return (map (change_for el t)
                        (dict_iter [(b1, files_of b1 pairs);
                                    (b2, files_of b2 pairs)]))).
  { cbn [_create_changes].
    rewrite (entry_changes_well_formed _ _ self el t ps Hwf), Hgroup.
    cbn [bind]. now rewrite app_nil_r. }
  split; [exact Hbuilt|].
  intros Hid. rewrite Hbuilt, Hid. reflexivity.
Qed.

Lemma two_branches_two_changes_example :
  _create_changes sample_time (fun d => d) branches_poller [two_branch_entry]
    = Return [change_for two_branch_entry 1159730705
                (Some "1.5", ["b.c"; "d.c"]);
              change_for two_branch_entry 1159730705 (None, ["a.c"])].
Proof.
  reflexivity.
Qed.

(** ** Submission: properties *)

Section Submission.

Variable Parent : Type.
Variable addChange : Change -> Parent -> Parent * result unit.

Lemma submit_changes_app (before after : list Change) (parent : Parent) :
  _submit_changes Parent addChange (before ++ after) parent =
    match _submit_changes Parent addChange before parent with
    | (parent1, Return _) => _submit_changes Parent addChange after parent1
    | (parent1, Raise e) => (parent1, Raise e)
    end.
Proof.
  revert parent. induction before as [|c before IH]; intros parent.
  - reflexivity.
  - cbn [app _submit_changes].
    destruct (addChange c parent) as [parent1 [[]|e]]; [apply IH | reflexivity].
Qed.

Lemma get_new_logentries_working (self : SvnSource)
    (logentries : list LogEntry) :
  working (fst (_get_new_logentries self logentries)) = working self.
Proof.
  unfold _get_new_logentries, _filter_new_logentries.
  destruct logentries as [|el0 rest]; [reflexivity|].
  destruct (last_change self) as [lc|]; [|reflexivity].
  destruct (lc =? revision el0); reflexivity.
Qed.

(** C9 (amended): an [addChange] that raises ends the batch.  The changes
    before it have been submitted, the change that failed is not submitted
    again and the changes after it are not submitted at all: the change
    master and the outcome are those of the batch cut after the failing
    change.  The cycle still reaches [_finished], which clears [working]
    and hands the failure on. *)
Theorem submit_stops_at_first_failure
    (log_entries : string -> option (list LogEntry))
    (strptime_mktime : string -> option Z)
    (dict_iter : branches_dict -> branches_dict)
    (before after : list Change) (c : Change)
    (parent parent1 parent2 : Parent) (e : exn) :
  _submit_changes Parent addChange before parent = (parent1, Return tt) ->
  addChange c parent1 = (parent2, Raise e) ->
  _submit_changes Parent addChange (before ++ c :: after) parent
    = (parent2, Raise e) /\
  _submit_changes Parent addChange (before ++ c :: after) parent
    = _submit_changes Parent addChange (before ++ [c]) parent /\
  (forall self output logentries,
     working self = true ->
     log_entries output = Some logentries ->
     _create_changes strptime_mktime dict_iter
       (fst (_get_new_logentries self logentries))
       (snd (_get_new_logentries self logentries))
       = Return (before ++ c :: after) ->
     log_arrived log_entries strptime_mktime dict_iter Parent addChange
       self parent (Return output)
       = (set_working (fst (_get_new_logentries self logentries)) false,
          parent2, Raise e)).
Proof.
  intros Hbefore Hfail.
  assert (Hcut : forall rest,
             _submit_changes Parent addChange (before ++ c :: rest) parent
               = (parent2, Raise e)).
  { intros rest. rewrite submit_changes_app, Hbefore.
    cbn [_submit_changes]. now rewrite Hfail. }
  split; [apply Hcut | split; [now rewrite !Hcut|]].
  intros self output logentries Hworking Hparse Hbuilt.
  unfold log_arrived, _parse_logs. rewrite Hparse.
  pose proof (get_new_logentries_working self logentries) as Hkept.
  destruct (_get_new_logentries self logentries) as [self1 new_logentries].
  cbn [fst snd] in *. rewrite Hbuilt, Hcut.
  unfold _finished. rewrite Hkept, Hworking. reflexivity.
Qed.

End Submission.

Lemma submit_stops_at_first_failure_witness :
  _submit_changes (list Change) recording_addChange
    ([sample_change 1] ++ sample_change 2 :: [sample_change 3]) []
    = ([sample_change 1; sample_change 2], Raise (SinkError "refused")).
Proof.
  apply (submit_stops_at_first_failure (list Change) recording_addChange
           (fun _ => None) sample_time (fun d => d)
           [sample_change 1] [sample_change 3] (sample_change 2)
           [] [sample_change 1] [sample_change 1; sample_change 2]
           (SinkError "refused")); reflexivity.
Defined.

(** C9 (as stated) fails: of a batch of three changes whose second is
    refused, the change master never receives the third, and the outcome
    of the batch is the failure. *)
Lemma submit_aborts_batch :
  _submit_changes (list Change) recording_addChange
    [sample_change 1; sample_change 2; sample_change 3] []
    = ([sample_change 1; sample_change 2], Raise (SinkError "refused")) /\
  ~ In (sample_change 3)
      (fst (_submit_changes (list Change) recording_addChange
              [sample_change 1; sample_change 2; sample_change 3] [])).
Proof.
  split; [reflexivity|].
  simpl. intros [H | [H | []]]; discriminate H.
Qed.

(** ** The trigger: properties *)

(** C5 (as the code has it): [checksvn] looks at [_prefix] before it looks
    at [working].  A trigger that arrives while a cycle is in flight, on a
    poller whose prefix is the empty string, starts the [info] command of
    [_determine_prefix] all the same; only the log fetch and the rest of
    the cycle are skipped. *)
Theorem checksvn_while_working_queries_info (self : SvnSource) :
  working self = true ->
  _prefix self = Some "" ->
  checksvn self = Return (self, [_determine_prefix self], AwaitInfo false) /\
  hd_error (arguments (_determine_prefix self)) = Some "info".
Proof.
  intros Hworking Hprefix. unfold checksvn.
  rewrite Hprefix, Hworking. split; reflexivity.
Qed.

Lemma checksvn_while_working_queries_info_witness :
  checksvn branches_poller =
    Return (branches_poller,
            [{| executable := "svn";
                arguments := ["info"; "--xml"; "--non-interactive";
                              "svn://host/repo"] |}],
            AwaitInfo false).
Proof.
  apply (checksvn_while_working_queries_info branches_poller); reflexivity.
Defined.

(** With a prefix that is known and not empty, a trigger that arrives
    while a cycle is in flight starts no command and changes nothing. *)
Lemma checksvn_while_working_skips (self : SvnSource) :
  working self = true ->
  truthy (_prefix self) = true ->
  checksvn self = Return (self, [], Succeeded).
Proof.
  intros Hworking Hprefix. unfold checksvn.
  destruct (_prefix self) as [prefix|]; [|discriminate].
  now rewrite Hprefix, Hworking.
Qed.

(** While a cycle is in flight no trigger starts the log fetch or attaches
    a second cycle, and the poller is left as it was; a cycle is attached
    only by a trigger that finds [working] false, which sets it. *)
Lemma checksvn_single_cycle (self self1 : SvnSource)
    (started : list ProcessCall) (d : Deferred) :
  checksvn self = Return (self1, started, d) ->
  (working self = true ->
   self1 = self /\ ~ In (_get_logs self) started /\
   d <> AwaitLog /\ d <> AwaitInfo true) /\
  (working self = false ->
   working self1 = true /\ (d = AwaitLog \/ d = AwaitInfo true)).
Proof.
  unfold checksvn.
  destruct (_prefix self) as [prefix|]; [|discriminate].
  destruct (truthy (Some prefix)), (working self); cbn;
    intros H; injection H as <- <- <-;
    (split; intros H; try discriminate H).
  - repeat split; try discriminate. tauto.
  - split; [reflexivity | now left].
  - repeat split; try discriminate.
    intros [Heq | []]. discriminate Heq.
  - split; [reflexivity | now right].
Qed.

(** Where [_prefix] does not exist, a trigger raises [AttributeError]
    before it starts anything. *)
Lemma checksvn_without_prefix (self : SvnSource) :
  _prefix self = None -> checksvn self = Raise AttributeError.
Proof.
  intros Hnone. unfold checksvn. now rewrite Hnone.
Qed.

(** ** The revision filter: further properties *)

Lemma collect_new_absent (w : Z) (logentries : list LogEntry) :
  ~ In w (map revision logentries) ->
  collect_new w logentries = logentries.
Proof.
  induction logentries as [|el rest IH]; simpl; [reflexivity|].
  intros Hnot.
  destruct (Z.eqb_spec w (revision el)) as [Heq|];
    [exfalso; apply Hnot; left; congruence|].
  rewrite IH by tauto. reflexivity.
Qed.

Lemma collect_new_prefix (w : Z) (logentries : list LogEntry) :
  exists older, logentries = collect_new w logentries ++ older.
Proof.
  induction logentries as [|el rest (older & IH)]; simpl.
  - exists []. reflexivity.
  - destruct (w =? revision el).
    + exists (el :: rest). reflexivity.
    + exists older. simpl. now rewrite <- IH.
Qed.

Lemma collect_new_not_at (w : Z) (logentries : list LogEntry) :
  Forall (fun el => revision el <> w) (collect_new w logentries).
Proof.
  induction logentries as [|el rest IH]; simpl; [constructor|].
  destruct (Z.eqb_spec w (revision el)); constructor; [congruence | exact IH].
Qed.

Lemma get_new_logentries_watermark
    (self : SvnSource) (el0 : LogEntry) (rest : list LogEntry) :
  last_change (fst (_get_new_logentries self (el0 :: rest)))
    = Some (revision el0).
Proof.
  unfold _get_new_logentries. cbn [_filter_new_logentries].
  destruct (last_change self) as [lc|]; [|reflexivity].
  destruct (lc =? revision el0); reflexivity.
Qed.

Lemma set_last_change_same (self : SvnSource) (r : option Z) :
  last_change self = r -> set_last_change self r = self.
Proof.
  intros <-. destruct self. reflexivity.
Qed.

(** X1: a log whose newest revision is the one the previous cycle listed
    as newest brings nothing new and leaves the poller as it is, whatever
    else the two logs list. *)
Theorem unchanged_repository_emits_nothing
    (self : SvnSource) (el0 el1 : LogEntry) (rest0 rest1 : list LogEntry) :
  revision el1 = revision el0 ->
  _get_new_logentries (fst (_get_new_logentries self (el0 :: rest0)))
    (el1 :: rest1)
  = (fst (_get_new_logentries self (el0 :: rest0)), []).
Proof.
  intros Hsame.
  pose proof (get_new_logentries_watermark self el0 rest0) as Hmark.
  set (self1 := fst (_get_new_logentries self (el0 :: rest0))) in *.
  unfold _get_new_logentries. rewrite Hmark.
  cbn [_filter_new_logentries]. rewrite Hsame, Z.eqb_refl.
  now rewrite set_last_change_same.
Qed.

Lemma unchanged_repository_emits_nothing_witness :
  _get_new_logentries
    (fst (_get_new_logentries (poller_at (Some 5))
            [sample_entry 7 ["proj/a.c"]; sample_entry 5 []]))
    [sample_entry 7 ["proj/a.c"]; sample_entry 5 []]
  = (poller_at (Some 7), []).
Proof.
  apply (unchanged_repository_emits_nothing (poller_at (Some 5))
           (sample_entry 7 ["proj/a.c"]) (sample_entry 7 ["proj/a.c"])
           [sample_entry 5 []] [sample_entry 5 []]).
  reflexivity.
Defined.

(** X2: when no listed entry is at the watermark (more revisions than the
    log lists have come in since), every listed entry is handed on, oldest
    first, and the watermark becomes the newest listed revision. *)
Theorem watermark_outside_window
    (self : SvnSource) (el0 : LogEntry) (rest : list LogEntry) (w : Z) :
  ~ In w (map revision (el0 :: rest)) ->
  _filter_new_logentries self (el0 :: rest) (Some w) =
    (self, (Some (revision el0), rev (el0 :: rest))).
Proof.
  intros Hnot. cbn [_filter_new_logentries].
  rewrite (collect_new_absent w (el0 :: rest) Hnot).
  destruct (Z.eqb_spec w (revision el0)) as [Heq|]; [|reflexivity].
  exfalso. apply Hnot. simpl. now left.
Qed.

Lemma watermark_outside_window_witness :
  _filter_new_logentries (poller_at (Some 5))
    [sample_entry 9 []; sample_entry 8 []; sample_entry 7 []] (Some 5) =
    (poller_at (Some 5),
     (Some 9, [sample_entry 7 []; sample_entry 8 []; sample_entry 9 []])).
Proof.
  apply (watermark_outside_window (poller_at (Some 5)) (sample_entry 9 [])
           [sample_entry 8 []; sample_entry 7 []] 5).
  simpl. intros [H | [H | [H | []]]]; discriminate H.
Defined.

(** X3: whatever the log and the watermark, the entries handed on are the
    first entries of the log in reverse order, none of them at the
    watermark's revision; without a watermark none is handed on. *)
Theorem new_entries_are_reversed_prefix
    (self : SvnSource) (logentries : list LogEntry) (lc : option Z) :
  (exists older,
     logentries =
       rev (snd (snd (_filter_new_logentries self logentries lc))) ++ older)
  /\
  match lc with
  | Some w =>
      Forall (fun el => revision el <> w)
        (snd (snd (_filter_new_logentries self logentries lc)))
  | None => snd (snd (_filter_new_logentries self logentries lc)) = []
  end.
Proof.
  destruct logentries as [|el0 rest].
  - split; [exists []; reflexivity | destruct lc; [constructor | reflexivity]].
  - cbn [_filter_new_logentries].
    destruct lc as [w|]; cbn [snd].
    + destruct (w =? revision el0); cbn [snd].
      * split; [exists (el0 :: rest); reflexivity | constructor].
      * rewrite rev_involutive. split.
        -- apply collect_new_prefix.
        -- apply Forall_rev, collect_new_not_at.
    + split; [exists (el0 :: rest); reflexivity | reflexivity].
Qed.

Lemma run_cycles_app (self : SvnSource) (before after : list (list LogEntry)) :
  run_cycles self (before ++ after) =
    (fst (run_cycles (fst (run_cycles self before)) after),
     snd (run_cycles self before)
     ++ snd (run_cycles (fst (run_cycles self before)) after)).
Proof.
  revert self. induction before as [|logentries before IH]; intros self.
  - cbn. now destruct (run_cycles self after).
  - cbn [app run_cycles].
    destruct (_get_new_logentries self logentries) as [self1 new_logentries].
    rewrite IH.
    destruct (run_cycles self1 before) as [self2 emitted].
    cbn [fst snd].
    destruct (run_cycles self2 after) as [self3 emitted']. reflexivity.
Qed.

(** X4: after a cycle whose log lists no entry the poller has no
    watermark, so the next log is taken as a first run: whatever went
    before, it hands on nothing, the entries that came in since the old
    watermark included, and its newest revision becomes the watermark. *)
Theorem empty_log_loses_changes
    (self : SvnSource) (cycles : list (list LogEntry))
    (el0 : LogEntry) (rest : list LogEntry) :
  last_change (fst (run_cycles self (cycles ++ [[]]))) = None /\
  last_change (fst (run_cycles self (cycles ++ [[]; el0 :: rest])))
    = Some (revision el0) /\
  snd (run_cycles self (cycles ++ [[]; el0 :: rest]))
    = snd (run_cycles self cycles) ++ [[]; []].
Proof.
  rewrite !run_cycles_app.
  destruct (run_cycles self cycles) as [self1 emitted].
  cbn [fst snd]. repeat split.
Qed.

(** ** The change builder: further properties *)

Lemma create_changes_entry
    (strptime_mktime : string -> option Z)
    (dict_iter : branches_dict -> branches_dict)
    (self : SvnSource) (el : LogEntry) (t : Z) (ps : list string)
    (pairs : list (option string * string)) :
  well_formed strptime_mktime el t ps ->
  Forall2 (fun p bf => _transform_path self (Py.strip_slash p) = Return bf)
    ps pairs ->
  _create_changes strptime_mktime dict_iter self [el] =
    Return (map (change_for el t) (dict_iter (grouped pairs))).
Proof.
  intros Hwf Hpairs.
  pose proof (group_paths_grouped self ps pairs Hpairs []) as Hgroup.
  change (grouped []) with (@nil (option string * list string)) in Hgroup.
  cbn [app] in Hgroup.
  cbn [_create_changes].
  rewrite (entry_changes_well_formed _ _ self el t ps Hwf), Hgroup.
  cbn [bind]. now rewrite app_nil_r.
Qed.

(** X5: an entry that has its [author], [msg], [date] and [<paths>]
    children and a date that parses, and whose paths are all turned into
    pairs, gives exactly one change per distinct branch, whatever the
    number of branches, when the dictionary hands out each of its keys
    once: the branches of the changes are the branches of the pairs, each
    once; a change carries the files of its branch in path order, and the
    revision, author, message and time of the entry. *)
Theorem one_change_per_branch
    (strptime_mktime : string -> option Z)
    (dict_iter : branches_dict -> branches_dict)
    (self : SvnSource) (el : LogEntry) (t : Z) (ps : list string)
    (pairs : list (option string * string)) :
  well_formed strptime_mktime el t ps ->
  Forall2 (fun p bf => _transform_path self (Py.strip_slash p) = Return bf)
    ps pairs ->
  (forall d, Permutation (dict_iter d) d) ->
  exists changes,
    _create_changes strptime_mktime dict_iter self [el] = Return changes /\
    Permutation (map branch changes) (first_seen (map fst pairs)) /\
    NoDup (map branch changes) /\
    (forall b, In b (map branch changes) <-> In b (map fst pairs)) /\
    Forall (fun c =>
              files c = files_of (branch c) pairs /\
              change_revision c = revision el /\
              Some (who c) = author el /\
              Some (comments c) = msg el /\ when c = t) changes.
Proof.
  intros Hwf Hpairs Hperm.
  exists (map (change_for el t) (dict_iter (grouped pairs))).
  split; [apply (create_changes_entry _ _ self el t ps); assumption|].
  assert (Hbranches :
            Permutation
              (map branch (map (change_for el t) (dict_iter (grouped pairs))))
              (first_seen (map fst pairs))).
  { rewrite map_map. cbn [branch change_for make_change].
    rewrite (Permutation_map fst (Hperm (grouped pairs))).
    rewrite grouped_by_branch, map_map. cbn [fst].
    now rewrite map_id. }
  split; [exact Hbranches | split; [|split]].
  - apply (Permutation_NoDup (Permutation_sym Hbranches)).
    apply first_seen_NoDup.
  - intros b. split; intros Hin.
    + apply first_seen_In. apply (Permutation_in _ Hbranches Hin).
    + apply (Permutation_in _ (Permutation_sym Hbranches)).
      apply first_seen_In, Hin.
  - destruct Hwf as ((a & Ha) & (m & Hm) & _).
    apply Forall_forall. intros c Hc.
    apply in_map_iff in Hc. destruct Hc as (item & <- & Hitem).
    apply (Permutation_in _ (Hperm (grouped pairs))) in Hitem.
    rewrite grouped_by_branch in Hitem.
    apply in_map_iff in Hitem. destruct Hitem as (k & <- & _).
    cbn. rewrite Ha, Hm. repeat split.
Qed.

Lemma one_change_per_branch_witness :
  exists changes,
    _create_changes sample_time (@rev (option string * list string))
      branches_poller [two_branch_entry] = Return changes /\
    Permutation (map branch changes) [Some "1.5"; None].
Proof.
  destruct (one_change_per_branch sample_time
              (@rev (option string * list string))
              branches_poller two_branch_entry 1159730705
              ["/branches/1.5/b.c"; "/trunk/a.c"; "/branches/1.5/d.c"]
              [(Some "1.5", "b.c"); (None, "a.c"); (Some "1.5", "d.c")])
    as (changes & Hbuilt & Hbranches & _).
  - unfold well_formed, two_branch_entry, sample_entry. cbn.
    repeat split; eexists; try split; reflexivity.
  - repeat constructor.
  - intros d. apply Permutation_sym, Permutation_rev.
  - exists changes. split; [exact Hbuilt | exact Hbranches].
Defined.

Lemma branches_append_files (b : option string) (f : string)
    (branches : branches_dict) :
  Permutation (concat (map snd (branches_append b f branches)))
    (concat (map snd branches) ++ [f]).
Proof.
  induction branches as [|[k fs] branches IH]; cbn [branches_append].
  - reflexivity.
  - destruct (branch_eqb k b); cbn [map snd concat].
    + rewrite <- !app_assoc. apply Permutation_app_head.
      apply Permutation_app_comm.
    + rewrite IH. now rewrite app_assoc.
Qed.

Lemma grouped_files (pairs : list (option string * string)) :
  Permutation (concat (map snd (grouped pairs))) (map snd pairs).
Proof.
  induction pairs as [|[b f] pairs IH] using rev_ind; [reflexivity|].
  rewrite grouped_snoc, branches_append_files, IH, map_app. reflexivity.
Qed.

(** X6: the changes of an entry that has all its children and a date
    that parses, and whose paths are all turned into pairs, share out its
    files when the dictionary hands out each of its keys once: taken
    together, the files of the changes are the files of the pairs, none
    lost and none twice. *)
Theorem changes_share_out_files
    (strptime_mktime : string -> option Z)
    (dict_iter : branches_dict -> branches_dict)
    (self : SvnSource) (el : LogEntry) (t : Z) (ps : list string)
    (pairs : list (option string * string)) :
  well_formed strptime_mktime el t ps ->
  Forall2 (fun p bf => _transform_path self (Py.strip_slash p) = Return bf)
    ps pairs ->
  (forall d, Permutation (dict_iter d) d) ->
  exists changes,
    _create_changes strptime_mktime dict_iter self [el] = Return changes /\
    Permutation (concat (map files changes)) (map snd pairs).
Proof.
  intros Hwf Hpairs Hperm.
  exists (map (change_for el t) (dict_iter (grouped pairs))).
  split; [apply (create_changes_entry _ _ self el t ps); assumption|].
  rewrite map_map. cbn [files change_for make_change].
  rewrite <- grouped_files, <- !flat_map_concat_map.
  apply Permutation_flat_map, Hperm.
Qed.

Lemma changes_share_out_files_witness :
  exists changes,
    _create_changes sample_time (fun d => d) branches_poller
      [two_branch_entry] = Return changes /\
    Permutation (concat (map files changes)) ["b.c"; "a.c"; "d.c"].
Proof.
  apply (changes_share_out_files sample_time (fun d => d)
           branches_poller two_branch_entry 1159730705
           ["/branches/1.5/b.c"; "/trunk/a.c"; "/branches/1.5/d.c"]
           [(Some "1.5", "b.c"); (None, "a.c"); (Some "1.5", "d.c")]).
  - unfold well_formed, two_branch_entry, sample_entry. cbn.
    repeat split; eexists; try split; reflexivity.
  - repeat constructor.
  - intros d. reflexivity.
Defined.

Lemma create_changes_concat
    (strptime_mktime : string -> option Z)
    (dict_iter : branches_dict -> branches_dict)
    (self : SvnSource) (first rest : list LogEntry) :
  _create_changes strptime_mktime dict_iter self (first ++ rest) =
    (changes1 <- _create_changes strptime_mktime dict_iter self first ;;
     changes2 <- _create_changes strptime_mktime dict_iter self rest ;;
     Return (changes1 ++ changes2)).
Proof.
  induction first as [|el first IH]; cbn [app _create_changes].
  - cbn [bind].
    destruct (_create_changes strptime_mktime dict_iter self rest);
      reflexivity.
  - destruct (entry_changes strptime_mktime dict_iter self el);
      [|reflexivity].
    cbn [bind]. rewrite IH.
    destruct (_create_changes strptime_mktime dict_iter self first);
      [|reflexivity].
    cbn [bind].
    destruct (_create_changes strptime_mktime dict_iter self rest);
      [|reflexivity].
    cbn [bind]. now rewrite app_assoc.
Qed.

(** X7: entries are built in order and all or none: where both parts of a
    batch can be built, the changes of the batch are those of its first
    part followed by those of the rest; where a part fails, the batch
    fails with the failure of the first part, or else with that of the
    rest, and gives no change. *)
Theorem create_changes_app
    (strptime_mktime : string -> option Z)
    (dict_iter : branches_dict -> branches_dict)
    (self : SvnSource) (first rest : list LogEntry) :
  match _create_changes strptime_mktime dict_iter self first,
        _create_changes strptime_mktime dict_iter self rest with
  | Return changes1, Return changes2 =>
      _create_changes strptime_mktime dict_iter self (first ++ rest)
        = Return (changes1 ++ changes2)
  | Raise e, _ =>
      _create_changes strptime_mktime dict_iter self (first ++ rest) = Raise e
  | Return _, Raise e =>
      _create_changes strptime_mktime dict_iter self (first ++ rest) = Raise e
  end.
Proof.
  rewrite create_changes_concat.
  destruct (_create_changes strptime_mktime dict_iter self first);
    [|reflexivity].
  destruct (_create_changes strptime_mktime dict_iter self rest);
    reflexivity.
Qed.

(** X8: a revision with an empty [<paths>] child, which has its
    [author], [msg] and [date] and a date that parses, leaves no trace
    when the dictionary hands out each of its keys once: with or without
    it the batch gives the same changes. *)
Theorem entry_without_paths_is_dropped
    (strptime_mktime : string -> option Z)
    (dict_iter : branches_dict -> branches_dict)
    (self : SvnSource) (el : LogEntry) (before after : list LogEntry) (t : Z) :
  well_formed strptime_mktime el t [] ->
  (forall d, Permutation (dict_iter d) d) ->
  _create_changes strptime_mktime dict_iter self (before ++ el :: after) =
    _create_changes strptime_mktime dict_iter self (before ++ after).
Proof.
  intros Hwf Hperm.
  rewrite !create_changes_concat.
  destruct (_create_changes strptime_mktime dict_iter self before);
    [|reflexivity].
  cbn [bind _create_changes].
  rewrite (entry_changes_well_formed _ _ self el t [] Hwf).
  cbn [bind group_paths].
  rewrite (Permutation_nil (Permutation_sym (Hperm []))).
  destruct (_create_changes strptime_mktime dict_iter self after);
    reflexivity.
Qed.

Lemma entry_without_paths_is_dropped_witness :
  _create_changes sample_time (fun d => d) branches_poller
    ([two_branch_entry] ++ sample_entry 7 [] :: []) =
  _create_changes sample_time (fun d => d) branches_poller
    ([two_branch_entry] ++ []).
Proof.
  apply (entry_without_paths_is_dropped sample_time (fun d => d)
           branches_poller (sample_entry 7 []) [two_branch_entry] []
           1159730705).
  - unfold well_formed, sample_entry. cbn.
    repeat split; eexists; try split; reflexivity.
  - intros d. reflexivity.
Defined.

(** X9: a changed path that does not start with the prefix (a revision
    that also touches another part of the repository) fails the assertion
    of [_transform_path], and with it every batch that holds the entry: no
    change is built, for the other paths and entries neither. *)
Theorem path_outside_prefix_fails_batch
    (strptime_mktime : string -> option Z)
    (dict_iter : branches_dict -> branches_dict)
    (self : SvnSource) (prefix : string)
    (els : list LogEntry) (el : LogEntry) (ps : list string) (p : string) :
  _prefix self = Some prefix ->
  In el els ->
  paths el = Some ps ->
  In p ps ->
  Py.startswith (Py.strip_slash p) prefix = false ->
  _transform_path self (Py.strip_slash p) =
    Raise (AssertionError
             ("filepath '" ++ Py.strip_slash p
              ++ "' should start with prefix '" ++ prefix ++ "'")) /\
  exists e, _create_changes strptime_mktime dict_iter self els = Raise e.
Proof.
  intros Hprefix Hel Hps Hp Hstart.
  assert (Hraise :
            _transform_path self (Py.strip_slash p) =
              Raise (AssertionError
                       ("filepath '" ++ Py.strip_slash p
                        ++ "' should start with prefix '" ++ prefix ++ "'"))).
  { unfold _transform_path. rewrite Hprefix, Hstart. reflexivity. }
  split; [exact Hraise|].
  apply (create_changes_raises _ _ self els el Hel).
  apply (entry_changes_raises _ _ self el ps Hps).
  apply (group_paths_raises self ps p Hp).
  eexists. exact Hraise.
Qed.

Lemma path_outside_prefix_fails_batch_witness :
  exists e,
    _create_changes sample_time (fun d => d) (poller_at (Some 5))
      [sample_entry 6 ["/proj/trunk/a.c"];
       sample_entry 7 ["/proj/trunk/b.c"; "/other/trunk/c.c"]] = Raise e.
Proof.
  apply (path_outside_prefix_fails_batch sample_time (fun d => d)
           (poller_at (Some 5)) "proj"
           [sample_entry 6 ["/proj/trunk/a.c"];
            sample_entry 7 ["/proj/trunk/b.c"; "/other/trunk/c.c"]]
           (sample_entry 7 ["/proj/trunk/b.c"; "/other/trunk/c.c"])
           ["/proj/trunk/b.c"; "/other/trunk/c.c"]
           "/other/trunk/c.c").
  - reflexivity.
  - simpl. tauto.
  - reflexivity.
  - simpl. tauto.
  - reflexivity.
Defined.

(** X10: the prefix is matched as a string, not as a directory: of any
    path that begins with the characters of the prefix, the policy gets
    what follows them, less one leading ["/"], and its answer is handed
    on (its [None] as [TypeError]).  A path in a sibling directory whose
    name begins like the prefix passes the assertion. *)
Theorem transform_path_under_prefix
    (self : SvnSource) (prefix rest : string) :
  _prefix self = Some prefix ->
  _transform_path self (prefix ++ rest) =
    unpacked (split_file self (Py.strip_slash rest)).
Proof.
  intros Hprefix. unfold _transform_path. rewrite Hprefix.
  rewrite startswith_app, drop_app. cbn [_assert bind].
  destruct (split_file self (Py.strip_slash rest)) as [[[b f]|]|e];
    reflexivity.
Qed.

Lemma transform_path_under_prefix_witness :
  _transform_path
    (sample_poller "svn://host/repo/proj" split_file_alwaystrunk
       (Some "proj") (Some 5) true)
    "project2/trunk/a.c" = Return (None, "ect2/trunk/a.c").
Proof.
  apply (transform_path_under_prefix
           (sample_poller "svn://host/repo/proj" split_file_alwaystrunk
              (Some "proj") (Some 5) true)
           "proj" "ect2/trunk/a.c").
  reflexivity.
Defined.

Lemma group_paths_alwaystrunk (self : SvnSource) (prefix : string)
    (ps : list string) (fs : list string) :
  split_file_function self = split_file_alwaystrunk ->
  _prefix self = Some prefix ->
  Forall (fun q => Py.startswith (Py.strip_slash q) prefix = true) ps ->
  group_paths self ps [(None, fs)] =
    Return [(None,
             fs ++ map (fun q => relative_to prefix (Py.strip_slash q)) ps)].
Proof.
  intros Hpolicy Hprefix Hall. revert fs.
  induction Hall as [|q ps Hq _ IH]; intros fs.
  - cbn. now rewrite app_nil_r.
  - cbn [group_paths]. unfold _transform_path, split_file.
    rewrite Hprefix, Hq, Hpolicy. cbn [_assert bind split_file_alwaystrunk].
    cbn [branches_append branch_eqb]. rewrite IH.
    cbn [map]. now rewrite <- app_assoc.
Qed.

(** X11: with the policy [split_file_alwaystrunk] an entry that has its
    [author], [msg] and [date], a date that parses, and at least one
    path, all of them under the prefix, gives exactly one change when the
    dictionary hands out each of its keys once: a change without a branch,
    whose files are the paths of the entry without the prefix, in the
    order of the entry. *)
Theorem alwaystrunk_one_change
    (strptime_mktime : string -> option Z)
    (dict_iter : branches_dict -> branches_dict)
    (self : SvnSource) (prefix : string) (el : LogEntry) (t : Z)
    (ps : list string) :
  split_file_function self = split_file_alwaystrunk ->
  _prefix self = Some prefix ->
  well_formed strptime_mktime el t ps ->
  (forall d, Permutation (dict_iter d) d) ->
  ps <> [] ->
  Forall (fun q => Py.startswith (Py.strip_slash q) prefix = true) ps ->
  _create_changes strptime_mktime dict_iter self [el] =
    Return [change_for el t
              (None,
               map (fun q => relative_to prefix (Py.strip_slash q)) ps)].
Proof.
  intros Hpolicy Hprefix Hwf Hperm Hne Hall.
  cbn [_create_changes].
  rewrite (entry_changes_well_formed _ _ self el t ps Hwf).
  destruct ps as [|p ps]; [congruence|].
  inversion Hall as [|? ? Hp Hps]; subst.
  cbn [group_paths]. unfold _transform_path at 1. unfold split_file.
  rewrite Hprefix, Hp, Hpolicy. cbn [_assert bind split_file_alwaystrunk].
  cbn [branches_append].
  rewrite (group_paths_alwaystrunk self prefix ps _ Hpolicy Hprefix Hps).
  cbn [bind app].
  rewrite (Permutation_length_1_inv (Permutation_sym (Hperm [_]))).
  reflexivity.
Qed.

Lemma alwaystrunk_one_change_witness :
  _create_changes sample_time (fun d => d)
    (sample_poller "svn://host/repo/proj" split_file_alwaystrunk
       (Some "proj") (Some 5) true)
    [sample_entry 6 ["/proj/trunk/a.c"; "/proj/branches/1.5/b.c"]] =
  Return [change_for
            (sample_entry 6 ["/proj/trunk/a.c"; "/proj/branches/1.5/b.c"])
            1159730705 (None, ["trunk/a.c"; "branches/1.5/b.c"])].
Proof.
  apply (alwaystrunk_one_change sample_time (fun d => d)
           (sample_poller "svn://host/repo/proj" split_file_alwaystrunk
              (Some "proj") (Some 5) true) "proj"
           (sample_entry 6 ["/proj/trunk/a.c"; "/proj/branches/1.5/b.c"])
           1159730705 ["/proj/trunk/a.c"; "/proj/branches/1.5/b.c"]).
  - reflexivity.
  - reflexivity.
  - unfold well_formed, sample_entry. cbn.
    repeat split; eexists; try split; reflexivity.
  - intros d. reflexivity.
  - discriminate.
  - repeat constructor.
Defined.

Lemma StronglySorted_app_cross {A : Type} (R : A -> A -> Prop)
    (l1 l2 : list A) :
  StronglySorted R l1 ->
  StronglySorted R l2 ->
  (forall x y, In x l1 -> In y l2 -> R x y) ->
  StronglySorted R (l1 ++ l2).
Proof.
  intros H1 H2 Hcross.
  induction H1 as [|a l1 Hl1 IH Ha]; [exact H2|].
  cbn [app]. constructor.
  - apply IH. intros x y Hx Hy. apply Hcross; [now right | exact Hy].
  - apply Forall_app. split; [exact Ha|].
    apply Forall_forall. intros y Hy. apply Hcross; [now left | exact Hy].
Qed.

Lemma collect_new_newest_first (w : Z) (logentries : list LogEntry) :
  newest_first logentries -> newest_first (collect_new w logentries).
Proof.
  unfold newest_first.
  induction 1 as [|el rest Hsorted IH Hall]; simpl; [constructor|].
  destruct (w =? revision el); constructor; [exact IH|].
  destruct (collect_new_prefix w rest) as (older & Hrest).
  rewrite Hrest in Hall. apply Forall_app in Hall. tauto.
Qed.

Lemma rev_newest_first (logentries : list LogEntry) :
  newest_first logentries -> oldest_first (rev logentries).
Proof.
  unfold newest_first, oldest_first.
  induction 1 as [|el rest Hsorted IH Hall]; simpl; [constructor|].
  apply StronglySorted_app_cross; [exact IH | repeat constructor|].
  intros x y Hx [<- | []]. apply in_rev in Hx.
  rewrite Forall_forall in Hall. apply Hall, Hx.
Qed.

Lemma get_new_logentries_oldest_first
    (self : SvnSource) (logentries : list LogEntry) :
  newest_first logentries ->
  oldest_first (snd (_get_new_logentries self logentries)).
Proof.
  intros Hsorted. unfold _get_new_logentries.
  destruct logentries as [|el0 rest]; [constructor|].
  cbn [_filter_new_logentries].
  destruct (last_change self) as [lc|]; [|constructor].
  destruct (lc =? revision el0); cbn [snd]; [constructor|].
  apply rev_newest_first, collect_new_newest_first, Hsorted.
Qed.

Lemma entry_changes_revision
    (strptime_mktime : string -> option Z)
    (dict_iter : branches_dict -> branches_dict)
    (self : SvnSource) (el : LogEntry) (changes : list Change) :
  entry_changes strptime_mktime dict_iter self el = Return changes ->
  Forall (fun c => change_revision c = revision el) changes.
Proof.
  unfold entry_changes.
  destruct (_get_text el "author") as [a|]; [|discriminate].
  destruct (_get_text el "msg") as [m|]; [|discriminate].
  destruct (_get_text el "date") as [d|]; [|discriminate].
  cbn [bind].
  destruct (strptime_mktime (substring 0 19 d)) as [t|]; [|discriminate].
  destruct (paths el) as [ps|]; [|discriminate].
  cbn [bind].
  destruct (group_paths self ps []) as [branches|]; [|discriminate].
  cbn [bind]. intros H. injection H as <-.
  apply Forall_forall. intros c Hc. unfold changes_of_entry in Hc.
  apply in_map_iff in Hc. destruct Hc as (item & <- & _). reflexivity.
Qed.

Lemma create_changes_revisions
    (strptime_mktime : string -> option Z)
    (dict_iter : branches_dict -> branches_dict)
    (self : SvnSource) (els : list LogEntry) (changes : list Change) :
  _create_changes strptime_mktime dict_iter self els = Return changes ->
  Forall (fun c => In (change_revision c) (map revision els)) changes.
Proof.
  revert changes. induction els as [|el els IH]; intros changes.
  - cbn. intros H. injection H as <-. constructor.
  - cbn [_create_changes].
    destruct (entry_changes strptime_mktime dict_iter self el)
      as [changes_of_el|] eqn:Hel; [|discriminate].
    cbn [bind].
    destruct (_create_changes strptime_mktime dict_iter self els)
      as [changes'|]; [|discriminate].
    cbn [bind]. intros H. injection H as <-.
    apply Forall_app. split.
    + apply Forall_impl with (2 := entry_changes_revision _ _ _ _ _ Hel).
      intros c Hc. cbn. now left.
    + apply Forall_impl with (2 := IH changes' eq_refl).
      intros c Hc. cbn. now right.
Qed.

Lemma create_changes_by_revision
    (strptime_mktime : string -> option Z)
    (dict_iter : branches_dict -> branches_dict)
    (self : SvnSource) (els : list LogEntry) (changes : list Change) :
  oldest_first els ->
  _create_changes strptime_mktime dict_iter self els = Return changes ->
  by_revision changes.
Proof.
  unfold oldest_first, by_revision. intros Hsorted. revert changes.
  induction Hsorted as [|el els Hsorted IH Hall]; intros changes.
  - cbn. intros H. injection H as <-. constructor.
  - cbn [_create_changes].
    destruct (entry_changes strptime_mktime dict_iter self el)
      as [changes_of_el|] eqn:Hel; [|discriminate].
    cbn [bind].
    destruct (_create_changes strptime_mktime dict_iter self els)
      as [changes'|] eqn:Hrest; [|discriminate].
    cbn [bind]. intros H. injection H as <-.
    pose proof (entry_changes_revision _ _ _ _ _ Hel) as Hsame.
    apply StronglySorted_app_cross.
    + clear - Hsame.
      induction Hsame as [|c cs Hc Hcs IHcs]; [constructor|].
      constructor; [exact IHcs|].
      apply Forall_impl with (2 := Hcs). intros d Hd. lia.
    + apply IH. reflexivity.
    + intros x y Hx Hy.
      rewrite Forall_forall in Hsame. rewrite (Hsame x Hx).
      pose proof (create_changes_revisions _ _ _ _ _ Hrest) as Hrevs.
      rewrite Forall_forall in Hrevs. specialize (Hrevs y Hy).
      apply in_map_iff in Hrevs. destruct Hrevs as (el' & <- & Hel').
      rewrite Forall_forall in Hall. specialize (Hall el' Hel'). lia.
Qed.

Lemma new_entries_prefix_of_log
    (self : SvnSource) (logentries : list LogEntry) :
  exists older,
    logentries = rev (snd (_get_new_logentries self logentries)) ++ older.
Proof.
  unfold _get_new_logentries.
  destruct logentries as [|el0 rest]; [exists []; reflexivity|].
  cbn [_filter_new_logentries].
  destruct (last_change self) as [lc|];
    [|exists (el0 :: rest); reflexivity].
  destruct (lc =? revision el0); cbn [snd];
    [exists (el0 :: rest); reflexivity|].
  rewrite rev_involutive. apply collect_new_prefix.
Qed.

(** X12: from a log that lists its entries newest first, the changes of a
    cycle come out in the order of their revisions, oldest first, whatever
    the watermark, and each is at a revision that the log lists. *)
Theorem cycle_changes_by_revision
    (strptime_mktime : string -> option Z)
    (dict_iter : branches_dict -> branches_dict)
    (self : SvnSource) (logentries : list LogEntry) (changes : list Change) :
  newest_first logentries ->
  _create_changes strptime_mktime dict_iter
    (fst (_get_new_logentries self logentries))
    (snd (_get_new_logentries self logentries)) = Return changes ->
  by_revision changes /\
  Forall (fun c => In (change_revision c) (map revision logentries)) changes.
Proof.
  intros Hsorted Hbuilt. split.
  - apply (create_changes_by_revision _ _ _ _ _
             (get_new_logentries_oldest_first self logentries Hsorted) Hbuilt).
  - pose proof (create_changes_revisions _ _ _ _ _ Hbuilt) as Hrevs.
    apply Forall_impl with (2 := Hrevs). intros c Hc.
    apply in_map_iff in Hc. destruct Hc as (el & <- & Hel).
    apply in_map.
    destruct (new_entries_prefix_of_log self logentries) as (older & Holder).
    rewrite Holder. apply in_or_app. left.
    apply (proj1 (in_rev _ _)), Hel.
Qed.

Lemma cycle_changes_by_revision_witness :
  by_revision
    [change_for (sample_entry 7 ["/proj/trunk/a.c"; "/proj/branches/1.5/b.c"])
       1159730705 (None, ["a.c"]);
     change_for (sample_entry 7 ["/proj/trunk/a.c"; "/proj/branches/1.5/b.c"])
       1159730705 (Some "1.5", ["b.c"]);
     change_for (sample_entry 8 ["/proj/trunk/c.c"])
       1159730705 (None, ["c.c"])].
Proof.
  apply (cycle_changes_by_revision sample_time (fun d => d)
           (poller_at (Some 5))
           [sample_entry 8 ["/proj/trunk/c.c"];
            sample_entry 7 ["/proj/trunk/a.c"; "/proj/branches/1.5/b.c"];
            sample_entry 5 ["/proj/trunk/a.c"]]).
  - unfold newest_first. repeat constructor; simpl; lia.
  - reflexivity.
Defined.

(** ** Submission and the cycle: further properties *)

Section Cycle.

Variable log_entries : string -> option (list LogEntry).
Variable strptime_mktime : string -> option Z.
Variable dict_iter : branches_dict -> branches_dict.
Variable Parent : Type.
Variable addChange : Change -> Parent -> Parent * result unit.

Lemma submit_changes_accepted (changes : list Change) (parent : Parent) :
  (forall c q, snd (addChange c q) = Return tt) ->
  _submit_changes Parent addChange changes parent =
    (fold_left (fun q c => fst (addChange c q)) changes parent, Return tt).
Proof.
  intros Haccept. revert parent.
  induction changes as [|c changes IH]; intros parent; [reflexivity|].
  cbn [_submit_changes fold_left].
  pose proof (Haccept c parent) as Hc.
  destruct (addChange c parent) as [parent1 r]. cbn [snd fst] in *.
  rewrite Hc. apply IH.
Qed.

(** X13: a cycle whose log parses, whose changes can be built and whose
    change master accepts every change hands each built change to
    [addChange] once, in the order they were built, and ends with
    [working] cleared and without failure. *)
Theorem cycle_submits_built_changes
    (self : SvnSource) (parent : Parent) (output : string)
    (logentries : list LogEntry) (changes : list Change) :
  working self = true ->
  log_entries output = Some logentries ->
  _create_changes strptime_mktime dict_iter
    (fst (_get_new_logentries self logentries))
    (snd (_get_new_logentries self logentries)) = Return changes ->
  (forall c q, snd (addChange c q) = Return tt) ->
  log_arrived log_entries strptime_mktime dict_iter Parent addChange
    self parent (Return output) =
    (set_working (fst (_get_new_logentries self logentries)) false,
     fold_left (fun q c => fst (addChange c q)) changes parent,
     Return tt).
Proof.
  intros Hworking Hparse Hbuilt Haccept.
  unfold log_arrived, _parse_logs. rewrite Hparse.
  pose proof (get_new_logentries_working self logentries) as Hkept.
  destruct (_get_new_logentries self logentries) as [self1 new_logentries].
  cbn [fst snd] in *. rewrite Hbuilt.
  rewrite (submit_changes_accepted changes parent Haccept).
  unfold _finished. rewrite Hkept, Hworking. reflexivity.
Qed.

(** X14: whatever arrives for the log command and whatever stage fails,
    a cycle that was started ends with [working] cleared, and with the
    prefix as it was. *)
Theorem cycle_releases_guard
    (self : SvnSource) (parent : Parent) (res : result string) :
  working self = true ->
  working
    (fst (fst (log_arrived log_entries strptime_mktime dict_iter
                 Parent addChange self parent res))) = false /\
  _prefix
    (fst (fst (log_arrived log_entries strptime_mktime dict_iter
                 Parent addChange self parent res))) = _prefix self.
Proof.
  intros Hworking. unfold log_arrived, _finished.
  destruct res as [output|e].
  - destruct (_parse_logs log_entries output) as [logentries|e].
    + pose proof (get_new_logentries_working self logentries) as Hkept.
      assert (Hprefix : _prefix (fst (_get_new_logentries self logentries))
                        = _prefix self).
      { unfold _get_new_logentries, _filter_new_logentries.
        destruct logentries as [|el0 rest]; [reflexivity|].
        destruct (last_change self) as [lc|]; [|reflexivity].
        destruct (lc =? revision el0); reflexivity. }
      destruct (_get_new_logentries self logentries)
        as [self1 new_logentries].
      cbn [fst snd] in *.
      destruct (_create_changes strptime_mktime dict_iter self1
                  new_logentries) as [changes|e].
      * destruct (_submit_changes Parent addChange changes parent)
          as [parent1 submitted].
        rewrite Hkept, Hworking. cbn. split; [reflexivity | exact Hprefix].
      * rewrite Hkept, Hworking. cbn. split; [reflexivity | exact Hprefix].
    + rewrite Hworking. cbn. split; reflexivity.
  - rewrite Hworking. cbn. split; reflexivity.
Qed.

(** X15: when the log command fails or its output does not parse, the
    cycle ends with that failure; nothing is submitted and the poller is
    as before, watermark included, but for [working], which is cleared:
    the next cycle starts from the same watermark. *)
Theorem fetch_or_parse_failure_keeps_watermark
    (self : SvnSource) (parent : Parent) :
  working self = true ->
  (forall e,
     log_arrived log_entries strptime_mktime dict_iter Parent addChange
       self parent (Raise e) = (set_working self false, parent, Raise e))
  /\
  (forall output,
     log_entries output = None ->
     log_arrived log_entries strptime_mktime dict_iter Parent addChange
       self parent (Return output) =
       (set_working self false, parent, Raise ExpatError)).
Proof.
  intros Hworking. unfold log_arrived, _finished, _parse_logs.
  split.
  - intros e. now rewrite Hworking.
  - intros output Hparse. now rewrite Hparse, Hworking.
Qed.

(** X16: the watermark is stored before the changes are built.  When the
    builder fails, the cycle ends with its failure and nothing is
    submitted, but the watermark is already at the newest listed
    revision: the same log, polled again, hands on nothing, so the
    entries of the failed cycle are never built into changes. *)
Theorem builder_failure_loses_entries
    (self : SvnSource) (parent : Parent) (output : string)
    (el0 : LogEntry) (rest : list LogEntry) (e : exn) :
  working self = true ->
  log_entries output = Some (el0 :: rest) ->
  _create_changes strptime_mktime dict_iter
    (fst (_get_new_logentries self (el0 :: rest)))
    (snd (_get_new_logentries self (el0 :: rest))) = Raise e ->
  log_arrived log_entries strptime_mktime dict_iter Parent addChange
    self parent (Return output) =
    (set_working (fst (_get_new_logentries self (el0 :: rest))) false,
     parent, Raise e) /\
  last_change
    (set_working (fst (_get_new_logentries self (el0 :: rest))) false)
    = Some (revision el0) /\
  snd (_get_new_logentries
         (set_working (fst (_get_new_logentries self (el0 :: rest))) false)
         (el0 :: rest)) = [].
Proof.
  intros Hworking Hparse Hfail.
  unfold log_arrived, _parse_logs. rewrite Hparse.
  pose proof (get_new_logentries_working self (el0 :: rest)) as Hkept.
  pose proof (get_new_logentries_watermark self el0 rest) as Hmark.
  destruct (_get_new_logentries self (el0 :: rest))
    as [self1 new_logentries].
  cbn [fst snd] in *. rewrite Hfail.
  unfold _finished. rewrite Hkept, Hworking.
  repeat split; [exact Hmark|].
  unfold _get_new_logentries.
  cbn [last_change set_working _filter_new_logentries].
  rewrite Hmark. cbn. now rewrite Z.eqb_refl.
Qed.

End Cycle.

Lemma cycle_submits_built_changes_witness :
  log_arrived
    (fun _ => Some [sample_entry 7 ["/proj/trunk/a.c"; "/proj/branches/1.5/b.c"];
                    sample_entry 5 ["/proj/trunk/a.c"]])
    sample_time (fun d => d) (list Change) accepting_addChange
    (poller_at (Some 5)) [] (Return "<log/>") =
  (sample_poller "svn://host/repo/proj" split_file_branches (Some "proj")
     (Some 7) false,
   [change_for (sample_entry 7 ["/proj/trunk/a.c"; "/proj/branches/1.5/b.c"])
      1159730705 (None, ["a.c"]);
    change_for (sample_entry 7 ["/proj/trunk/a.c"; "/proj/branches/1.5/b.c"])
      1159730705 (Some "1.5", ["b.c"])],
   Return tt).
Proof.
  apply (cycle_submits_built_changes
           (fun _ => Some [sample_entry 7
                             ["/proj/trunk/a.c"; "/proj/branches/1.5/b.c"];
                           sample_entry 5 ["/proj/trunk/a.c"]])
           sample_time (fun d => d) (list Change) accepting_addChange
           (poller_at (Some 5)) [] "<log/>"
           [sample_entry 7 ["/proj/trunk/a.c"; "/proj/branches/1.5/b.c"];
            sample_entry 5 ["/proj/trunk/a.c"]]
           [change_for
              (sample_entry 7 ["/proj/trunk/a.c"; "/proj/branches/1.5/b.c"])
              1159730705 (None, ["a.c"]);
            change_for
              (sample_entry 7 ["/proj/trunk/a.c"; "/proj/branches/1.5/b.c"])
              1159730705 (Some "1.5", ["b.c"])]).
  - reflexivity.
  - reflexivity.
  - reflexivity.
  - intros c q. reflexivity.
Defined.

Lemma cycle_releases_guard_witness :
  working
    (fst (fst (log_arrived (fun _ => None) sample_time (fun d => d)
                 (list Change) recording_addChange
                 (poller_at (Some 5)) [] (Return "garbage")))) = false.
Proof.
  apply (cycle_releases_guard (fun _ => None) sample_time (fun d => d)
           (list Change) recording_addChange
           (poller_at (Some 5)) [] (Return "garbage")).
  reflexivity.
Defined.

Lemma fetch_or_parse_failure_keeps_watermark_witness :
  log_arrived (fun _ => None) sample_time (fun d => d)
    (list Change) recording_addChange
    (poller_at (Some 5)) [] (Return "garbage") =
  (sample_poller "svn://host/repo/proj" split_file_branches (Some "proj")
     (Some 5) false, [], Raise ExpatError).
Proof.
  destruct (fetch_or_parse_failure_keeps_watermark (fun _ => None)
              sample_time (fun d => d) (list Change) recording_addChange
              (poller_at (Some 5)) []) as [_ Hparse].
  - reflexivity.
  - apply (Hparse "garbage"). reflexivity.
Defined.

Lemma builder_failure_loses_entries_witness :
  last_change
    (fst (fst (log_arrived
                 (fun _ => Some [sample_entry 7 ["/proj/tags/1.0/a.c"];
                                 sample_entry 5 []])
                 sample_time (fun d => d) (list Change) recording_addChange
                 (poller_at (Some 5)) [] (Return "<log/>")))) = Some 7.
Proof.
  apply (builder_failure_loses_entries
           (fun _ => Some [sample_entry 7 ["/proj/tags/1.0/a.c"];
                           sample_entry 5 []])
           sample_time (fun d => d) (list Change) recording_addChange
           (poller_at (Some 5)) [] "<log/>"
           (sample_entry 7 ["/proj/tags/1.0/a.c"]) [sample_entry 5 []]
           TypeError).
  - reflexivity.
  - reflexivity.
  - reflexivity.
Defined.

(** ** The trigger and prefix resolution: further properties *)

(** X17: for a watched URL that is the repository root the prefix is the
    empty string, which [checksvn] takes for a prefix not yet known: every
    trigger starts the [info] command again, and the log fetch of a cycle
    waits for its output instead of starting at once. *)
Theorem root_url_resolves_prefix_every_time
    (info_roots : string -> option (list string))
    (self : SvnSource) (output : string) :
  (info_roots output = Some [] \/
   exists others, info_roots output = Some (svnurl self :: others)) ->
  _prefix (fst (_determine_prefix_2 info_roots self output)) = Some "" /\
  forall later,
    _prefix later = Some "" ->
    checksvn later =
      Return (if working later then later else set_working later true,
              [_determine_prefix later],
              AwaitInfo (negb (working later))).
Proof.
  intros Hroot. split.
  - unfold _determine_prefix_2.
    destruct Hroot as [-> | (others & ->)]; [reflexivity|].
    replace (Py.startswith (svnurl self) (svnurl self)) with true.
    + cbn [_assert fst _prefix set_prefix].
      replace (Py.drop (String.length (svnurl self)) (svnurl self))
        with EmptyString; [reflexivity|].
      generalize (svnurl self). intros s.
      induction s as [|c s IH]; [reflexivity | exact IH].
    + generalize (svnurl self). intros s.
      induction s as [|c s IH]; [reflexivity|].
      cbn. now rewrite Ascii.eqb_refl.
  - intros later Hlater. unfold checksvn. rewrite Hlater. cbn [truthy negb].
    destruct (working later); reflexivity.
Qed.

Lemma root_url_resolves_prefix_every_time_witness :
  checksvn branches_poller =
    Return (branches_poller, [_determine_prefix branches_poller],
            AwaitInfo false).
Proof.
  destruct (root_url_resolves_prefix_every_time
              (fun _ => Some ["svn://host/repo"])
              (sample_poller "svn://host/repo" split_file_branches None
                 (Some 5) true) "<info/>") as [_ Hlater].
  - right. exists []. reflexivity.
  - apply (Hlater branches_poller). reflexivity.
Defined.

Lemma determine_prefix_2_failure
    (info_roots : string -> option (list string))
    (self : SvnSource) (output : string) (e : exn) :
  snd (_determine_prefix_2 info_roots self output) = Raise e ->
  fst (_determine_prefix_2 info_roots self output) = self.
Proof.
  unfold _determine_prefix_2.
  destruct (info_roots output) as [[|root others]|]; try reflexivity.
  - discriminate.
  - destruct (Py.startswith (svnurl self) root); [discriminate | reflexivity].
Qed.

(** X18: when prefix resolution fails inside a cycle (the [info] command
    fails, its output does not parse, or the URL does not start with the
    reported root), the cycle ends with that failure: no log command is
    started, [working] is cleared, and prefix and watermark are as
    before. *)
Theorem prefix_failure_aborts_cycle
    (info_roots : string -> option (list string))
    (self : SvnSource) (res : result string) (e : exn) :
  working self = true ->
  match res with
  | Raise e' => e' = e
  | Return output =>
      snd (_determine_prefix_2 info_roots self output) = Raise e
  end ->
  info_arrived info_roots true self res =
    (set_working self false, [], Fired (Some e)).
Proof.
  intros Hworking Hfail. unfold info_arrived, _finished.
  destruct res as [output|e'].
  - pose proof (determine_prefix_2_failure info_roots self output e Hfail)
      as Hsame.
    destruct (_determine_prefix_2 info_roots self output) as [self1 r].
    cbn [fst snd] in *. subst self1 r. now rewrite Hworking.
  - subst e'. now rewrite Hworking.
Qed.

Lemma prefix_failure_aborts_cycle_witness :
  info_arrived (fun _ => None) true (poller_at (Some 5)) (Return "garbage") =
    (sample_poller "svn://host/repo/proj" split_file_branches (Some "proj")
       (Some 5) false, [], Fired (Some ExpatError)).
Proof.
  apply (prefix_failure_aborts_cycle (fun _ => None) (poller_at (Some 5))
           (Return "garbage") ExpatError); reflexivity.
Defined.

(** X19: a cycle from the trigger to the end, for an idle poller whose
    prefix is the empty string and which has no watermark.  The trigger
    starts the [info] command only and sets [working]; its output, with a
    root that the URL starts with, fixes the prefix and starts the log
    command; the log gives the watermark, no change is built or submitted,
    and [working] is cleared.  Two commands were started, [info] and then
    [log]. *)
Theorem empty_prefix_cycle_end_to_end
    (info_roots : string -> option (list string))
    (log_entries : string -> option (list LogEntry))
    (strptime_mktime : string -> option Z)
    (dict_iter : branches_dict -> branches_dict)
    (Parent : Type) (addChange : Change -> Parent -> Parent * result unit)
    (self : SvnSource) (parent : Parent)
    (info_output log_output root rest : string) (others : list string)
    (el0 : LogEntry) (older : list LogEntry) :
  working self = false ->
  _prefix self = Some "" ->
  last_change self = None ->
  info_roots info_output = Some (root :: others) ->
  svnurl self = (root ++ rest)%string ->
  log_entries log_output = Some (el0 :: older) ->
  let resolved := set_prefix (set_working self true)
                    (Some (Py.strip_slash rest)) in
  checksvn self =
    Return (set_working self true, [_determine_prefix self], AwaitInfo true)
  /\
  info_arrived info_roots true (set_working self true) (Return info_output) =
    (resolved, [_get_logs self], StillWaiting AwaitLog) /\
  log_arrived log_entries strptime_mktime dict_iter Parent addChange
    resolved parent (Return log_output) =
    (set_working (set_last_change resolved (Some (revision el0))) false,
     parent, Return tt).
Proof.
  intros Hidle Hprefix Hnone Hroots Hurl Hlog resolved.
  split; [|split].
  - unfold checksvn. now rewrite Hprefix, Hidle.
  - unfold info_arrived, _determine_prefix_2. rewrite Hroots.
    cbn [svnurl set_working]. rewrite Hurl, startswith_app, drop_app.
    reflexivity.
  - unfold log_arrived, _parse_logs. rewrite Hlog.
    unfold _get_new_logentries.
    replace (last_change resolved) with (@None Z)
      by (symmetry; exact Hnone).
    reflexivity.
Qed.

Lemma empty_prefix_cycle_end_to_end_witness :
  log_arrived
    (fun _ => Some [sample_entry 7 ["/trunk/a.c"]; sample_entry 5 []])
    sample_time (fun d => d) (list Change) recording_addChange
    (sample_poller "svn://host/repo" split_file_branches (Some "") None true)
    [] (Return "<log/>") =
  (sample_poller "svn://host/repo" split_file_branches (Some "") (Some 7)
     false, [], Return tt).
Proof.
  exact (proj2 (proj2
           (empty_prefix_cycle_end_to_end
              (fun _ => Some ["svn://host/repo"])
              (fun _ => Some [sample_entry 7 ["/trunk/a.c"];
                              sample_entry 5 []])
              sample_time (fun d => d) (list Change) recording_addChange
              (sample_poller "svn://host/repo" split_file_branches
                 (Some "") None false)
              [] "<info/>" "<log/>" "svn://host/repo" "" []
              (sample_entry 7 ["/trunk/a.c"]) [sample_entry 5 []]
              eq_refl eq_refl eq_refl eq_refl eq_refl eq_refl))).
Defined.

(** ** Construction and the path policies: further properties *)

Lemma app_slash_not_empty (s : string) : (s ++ "/")%string <> EmptyString.
Proof.
  destruct s; discriminate.
Qed.

Lemma endswith_app_slash (s : string) : Py.endswith (s ++ "/") "/" = true.
Proof.
  induction s as [|c s IH]; [reflexivity|].
  cbn [append Py.endswith].
  pose proof (app_slash_not_empty s) as Hne.
  destruct (s ++ "/")%string; [congruence | exact IH].
Qed.

Lemma drop_last_app_slash (s : string) : Py.drop_last (s ++ "/") = s.
Proof.
  induction s as [|c s IH]; [reflexivity|].
  cbn [append Py.drop_last].
  pose proof (app_slash_not_empty s) as Hne.
  destruct (s ++ "/")%string; [congruence | now rewrite IH].
Qed.

(** X20: the constructor takes exactly one trailing ["/"] off the URL: a
    URL written with a trailing ["/"] is watched as the URL before it,
    and gives the same poller as that URL written without. *)
Theorem init_strips_one_trailing_slash
    (url : string) (split_file0 : option (string -> result split_result))
    (svnuser0 svnpasswd0 svnbin0 : option string)
    (pollinterval0 histmax0 : option Z) :
  svnurl (__init__ (url ++ "/") split_file0 svnuser0 svnpasswd0 svnbin0
            pollinterval0 histmax0) = url /\
  (Py.endswith url "/" = false ->
   __init__ (url ++ "/") split_file0 svnuser0 svnpasswd0 svnbin0
     pollinterval0 histmax0 =
   __init__ url split_file0 svnuser0 svnpasswd0 svnbin0
     pollinterval0 histmax0).
Proof.
  split.
  - unfold __init__. cbn [svnurl].
    now rewrite endswith_app_slash, drop_last_app_slash.
  - intros Hplain. unfold __init__.
    now rewrite endswith_app_slash, drop_last_app_slash, Hplain.
Qed.

Lemma init_strips_one_trailing_slash_witness :
  fresh_poller =
    __init__ "svn://host/repo/proj" None None None None None None.
Proof.
  apply (init_strips_one_trailing_slash "svn://host/repo/proj"
           None None None None None None).
  reflexivity.
Defined.

(** X21: what [split_file_branches] returns tells where the file is.  A
    pair without branch comes from ["trunk"] or ["trunk/<file>"]; a pair
    with a branch comes from ["branches/<name>"] or
    ["branches/<name>/<file>"], and the name holds no ["/"]. *)
Theorem split_file_branches_inverse
    (path : string) (b : option string) (file : string) :
  split_file_branches path = Return (Some (b, file)) ->
  match b with
  | None =>
      (path = "trunk" /\ file = "") \/ path = ("trunk/" ++ file)%string
  | Some name =>
      Py.contains "/" name = false /\
      ((path = ("branches/" ++ name)%string /\ file = "") \/
       path = ("branches/" ++ name ++ "/" ++ file)%string)
  end.
Proof.
  unfold split_file_branches.
  destruct (Py.split "/" path) as [|p ps] eqn:Hsplit; [discriminate|].
  destruct (split_inv "/" path p ps Hsplit) as [_ Hshape].
  destruct (String.eqb_spec p "trunk") as [-> | _].
  - intros H. injection H as <- <-.
    destruct Hshape as [[-> ->] | (s' & -> & ->)].
    + left. split; reflexivity.
    + right. now rewrite (join_split "/" s').
  - destruct (String.eqb_spec p "branches") as [-> | _]; [|discriminate].
    destruct ps as [|q qs]; [discriminate|].
    intros H. injection H as <- <-.
    destruct Hshape as [[Hnil _] | (s' & -> & Hs')]; [discriminate|].
    symmetry in Hs'.
    destruct (split_inv "/" s' q qs Hs') as [Hq [[-> ->] | (s'' & -> & ->)]].
    + split; [exact Hq | left; split; reflexivity].
    + split; [exact Hq | right]. now rewrite (join_split "/" s'').
Qed.

Lemma split_file_branches_inverse_witness :
  Py.contains "/" "1.5" = false /\
  (("branches/1.5/src/a.c" = "branches/1.5" /\ "src/a.c" = "") \/
   "branches/1.5/src/a.c" = "branches/1.5/src/a.c").
Proof.
  apply (split_file_branches_inverse "branches/1.5/src/a.c" (Some "1.5")
           "src/a.c").
  reflexivity.
Defined.

Lemma strip_slash_cases (s : string) :
  s = Py.strip_slash s \/ s = String "/" (Py.strip_slash s).
Proof.
  unfold Py.strip_slash. destruct s as [|c s]; [now left|].
  cbn [Py.startswith Py.drop].
  destruct (Ascii.eqb_spec c "/") as [-> | _]; cbn [andb]; [now right | now left].
Qed.

(** X22: a prefix that [_determine_prefix_2] returns for a reported root
    leads back to the watched URL: the URL is the root followed by the
    prefix, with or without a ["/"] between them; and the prefix returned
    is the one stored. *)
Theorem determine_prefix_2_inverse
    (info_roots : string -> option (list string))
    (self : SvnSource) (output root prefix : string) (others : list string) :
  info_roots output = Some (root :: others) ->
  snd (_determine_prefix_2 info_roots self output) = Return prefix ->
  (svnurl self = (root ++ prefix)%string \/
   svnurl self = (root ++ "/" ++ prefix)%string) /\
  _prefix (fst (_determine_prefix_2 info_roots self output)) = Some prefix.
Proof.
  intros Hroots. unfold _determine_prefix_2. rewrite Hroots.
  destruct (Py.startswith (svnurl self) root) eqn:Hstart; [|discriminate].
  destruct (startswith_inv _ _ Hstart) as (r & Hr).
  cbn [_assert snd fst _prefix set_prefix].
  rewrite Hr, drop_app. intros H. injection H as <-.
  split; [|reflexivity].
  destruct (strip_slash_cases r) as [Hsame | Hslash].
  - left. now rewrite <- Hsame.
  - right. now rewrite Hslash at 1.
Qed.

Lemma determine_prefix_2_inverse_witness :
  ("svn://host/repo/proj/trunk" = "svn://host/repo" ++ "proj/trunk" \/
   "svn://host/repo/proj/trunk" = "svn://host/repo" ++ "/" ++ "proj/trunk")%string.
Proof.
  apply (determine_prefix_2_inverse (fun _ => Some ["svn://host/repo"])
           (sample_poller "svn://host/repo/proj/trunk" split_file_alwaystrunk
              None None false) "<info/>" "svn://host/repo" "proj/trunk" []);
    reflexivity.
Defined.

(** ** Attributes and children that are not there *)

(** X23: a poller as the constructor leaves it cannot poll.  The
    constructor creates no [_prefix], so the first thing [checksvn] does,
    reading it, raises [AttributeError]: no command is started; and
    [_transform_path] raises it for every path. *)
Theorem fresh_poller_cannot_poll
    (url : string) (split_file0 : option (string -> result split_result))
    (svnuser0 svnpasswd0 svnbin0 : option string)
    (pollinterval0 histmax0 : option Z) :
  checksvn (__init__ url split_file0 svnuser0 svnpasswd0 svnbin0
              pollinterval0 histmax0) = Raise AttributeError /\
  forall path,
    _transform_path (__init__ url split_file0 svnuser0 svnpasswd0 svnbin0
                       pollinterval0 histmax0) path = Raise AttributeError.
Proof.
  split; [apply checksvn_without_prefix; reflexivity | reflexivity].
Qed.

Lemma entry_changes_missing_child
    (strptime_mktime : string -> option Z)
    (dict_iter : branches_dict -> branches_dict)
    (self : SvnSource) (el : LogEntry) :
  author el = None \/ msg el = None \/ date el = None ->
  entry_changes strptime_mktime dict_iter self el = Raise IndexError.
Proof.
  unfold entry_changes, _get_text, first_child_text.
  cbn [String.eqb Ascii.eqb Bool.eqb].
  intros [Ha | [Hm | Hd]].
  - now rewrite Ha.
  - rewrite Hm. destruct (author el); reflexivity.
  - rewrite Hd. destruct (author el); [|reflexivity].
    destruct (msg el); reflexivity.
Qed.

Lemma entry_changes_missing_paths
    (strptime_mktime : string -> option Z)
    (dict_iter : branches_dict -> branches_dict)
    (self : SvnSource) (el : LogEntry) :
  paths el = None ->
  exists e, entry_changes strptime_mktime dict_iter self el = Raise e.
Proof.
  intros Hps. unfold entry_changes, _get_text, first_child_text.
  cbn [String.eqb Ascii.eqb Bool.eqb].
  destruct (author el); [|eexists; reflexivity].
  destruct (msg el); [|eexists; reflexivity].
  destruct (date el) as [d|]; [|eexists; reflexivity].
  cbn [bind].
  destruct (strptime_mktime (substring 0 19 d)); [|eexists; reflexivity].
  rewrite Hps. eexists. reflexivity.
Qed.

(** X24: an entry that lacks its [author], [msg], [date] or [<paths>]
    child fails every batch that holds it, and no change is built, for
    the other entries neither.  At the head of a batch an entry without
    [author], [msg] or [date] fails it with [IndexError], and so does one
    without [<paths>] whose other children are there and whose date
    parses. *)
Theorem missing_child_fails_batch
    (strptime_mktime : string -> option Z)
    (dict_iter : branches_dict -> branches_dict)
    (self : SvnSource) (els : list LogEntry) (el : LogEntry) :
  In el els ->
  author el = None \/ msg el = None \/ date el = None \/ paths el = None ->
  (exists e, _create_changes strptime_mktime dict_iter self els = Raise e) /\
  (author el = None \/ msg el = None \/ date el = None ->
   forall rest,
     _create_changes strptime_mktime dict_iter self (el :: rest)
       = Raise IndexError) /\
  (forall a m d t rest,
     author el = Some a -> msg el = Some m -> date el = Some d ->
     strptime_mktime (substring 0 19 d) = Some t ->
     paths el = None ->
     _create_changes strptime_mktime dict_iter self (el :: rest)
       = Raise IndexError).
Proof.
  intros Hin Hmissing. split; [|split].
  - apply (create_changes_raises _ _ self els el Hin).
    destruct Hmissing as [Ha | [Hm | [Hd | Hps]]].
    + exists IndexError. apply entry_changes_missing_child. tauto.
    + exists IndexError. apply entry_changes_missing_child. tauto.
    + exists IndexError. apply entry_changes_missing_child. tauto.
    + apply entry_changes_missing_paths, Hps.
  - intros Hchild rest. cbn [_create_changes].
    now rewrite (entry_changes_missing_child _ _ self el Hchild).
  - intros a m d t rest Ha Hm Hd Ht Hps. cbn [_create_changes].
    unfold entry_changes, _get_text, first_child_text.
    cbn [String.eqb Ascii.eqb Bool.eqb].
    rewrite Ha, Hm, Hd. cbn [bind]. rewrite Ht, Hps. reflexivity.
Qed.

Lemma missing_child_fails_batch_witness :
  _create_changes sample_time (fun d => d) branches_poller
    [{| revision := 7; author := None; msg := Some "a change";
        date := Some "2006-10-01T19:25:05.032127Z";
        paths := Some ["/trunk/a.c"] |};
     sample_entry 8 ["/trunk/b.c"]] = Raise IndexError.
Proof.
  destruct (missing_child_fails_batch sample_time (fun d => d)
              branches_poller
              [{| revision := 7; author := None; msg := Some "a change";
                  date := Some "2006-10-01T19:25:05.032127Z";
                  paths := Some ["/trunk/a.c"] |};
               sample_entry 8 ["/trunk/b.c"]]
              {| revision := 7; author := None; msg := Some "a change";
                 date := Some "2006-10-01T19:25:05.032127Z";
                 paths := Some ["/trunk/a.c"] |})
    as (_ & Hhead & _).
  - simpl. tauto.
  - left. reflexivity.
  - apply Hhead. left. reflexivity.
Defined.
